(** * zboxcore/sdk/allocation.go: allocation orchestration

    A shallow embedding of [Allocation] and its file operations.  Machine
    integers are [Z] with the wrap-around written out, [float32] values are
    IEEE-754 binary32 numbers ([SpecFloat] at precision 24), and the
    collaborators living outside [allocation.go] (blobber requests, the
    file system, the ticket codec) are an environment of oracles whose every
    call is appended, with its answer, to an interaction trace.  A [go]
    statement is recorded as an event carrying what the closure captured;
    contexts and the mutex are not modelled, and the progress maps with the
    two request channels live in a record of their own, [Progress], on which
    the enqueue closures, the completion callbacks and the cancel operations
    act. *)

From Stdlib Require Import ZArith List String Ascii Bool Lia.
From Stdlib Require Import Floats.SpecFloat.
Import ListNotations.
Local Open Scope string_scope.
Local Open Scope Z_scope.

(** ** Machine arithmetic *)

Definition wrap32 (x : Z) : Z := x mod 2 ^ 32.

(** Go's [int] on the supported platforms: 64-bit two's complement. *)
Definition wrap_int (x : Z) : Z := (x + 2 ^ 63) mod 2 ^ 64 - 2 ^ 63.

Definition int_add (x y : Z) : Z := wrap_int (x + y).

(** [^x] on a [uint32]. *)
Definition not32 (x : Z) : Z := wrap32 (Z.lnot x).

(** [uint32((1 << uint32(n)) - 1)]: the untyped constant takes the type
    [uint32], so both the shift and the subtraction wrap at 32 bits. *)
Definition fullMask (n : Z) : Z := wrap32 (wrap32 (Z.shiftl 1 (wrap32 n)) - 1).

(** [^found & full], the repair target of [uploadOrUpdateFile]. *)
Definition complement (full found : Z) : Z := Z.land (not32 found) full.

Fixpoint tz_pos (p : positive) : Z :=
  match p with
  | xO q => 1 + tz_pos q
  | _ => 0
  end.

(** [bits.TrailingZeros32]: the result is 32 for a zero argument. *)
Definition TrailingZeros32 (x : Z) : Z :=
  match wrap32 x with
  | Zpos p => tz_pos p
  | _ => 32
  end.

Fixpoint ones_pos (p : positive) : Z :=
  match p with
  | xH => 1
  | xO q => ones_pos q
  | xI q => 1 + ones_pos q
  end.

(** Number of set bits of a [uint32] ([bits.OnesCount32]); the source never
    calls it, it measures how many blobbers a mask selects. *)
Definition OnesCount32 (x : Z) : Z :=
  match wrap32 x with
  | Zpos p => ones_pos p
  | _ => 0
  end.

(** ** float32 *)

Definition float32 : Type := spec_float.

Definition f32_of_int (n : Z) : float32 := binary_normalize 24 128 n 0 false.
Definition f32_mul : float32 -> float32 -> float32 := SFmul 24 128.
Definition f32_div : float32 -> float32 -> float32 := SFdiv 24 128.
Definition f32_sub : float32 -> float32 -> float32 := SFsub 24 128.

(** [(float32(a.DataShards) * 100) / float32(a.DataShards+a.ParityShards)] *)
Definition consensusThreshOf (D P : Z) : float32 :=
  f32_div (f32_mul (f32_of_int D) (f32_of_int 100)) (f32_of_int (int_add D P)).

(** [float32(a.DataShards + a.ParityShards)] *)
Definition fullconsensusOf (D P : Z) : float32 := f32_of_int (int_add D P).

(** ** Strings: the helpers of [strings], [path/filepath] and [fmt] in use *)

Definition is_slash (c : ascii) : bool := Ascii.eqb c "/"%char.

(** [strings.TrimRight(s, "/")] *)
Fixpoint TrimRight_slash (s : string) : string :=
  match s with
  | EmptyString => EmptyString
  | String c r =>
      match TrimRight_slash r with
      | EmptyString => if is_slash c then EmptyString else String c EmptyString
      | r' => String c r'
      end
  end.

(** [filepath.Split]: the directory part ends with the last separator. *)
Fixpoint filepath_Split (s : string) : string * string :=
  match s with
  | EmptyString => (EmptyString, EmptyString)
  | String c r =>
      let '(d, f) := filepath_Split r in
      match d with
      | EmptyString =>
          if is_slash c then (String c EmptyString, f) else (EmptyString, String c f)
      | _ => (String c d, f)
      end
  end.

Definition len (s : string) : Z := Z.of_nat (String.length s).

(** ** Errors *)

Inductive error : Type :=
| ErrorsNew (msg : string)             (* errors.New, fmt.Errorf *)
| CommonError (code msg : string).     (* common.NewError *)

Definition error_eqb (e1 e2 : error) : bool :=
  match e1, e2 with
  | ErrorsNew m1, ErrorsNew m2 => String.eqb m1 m2
  | CommonError c1 m1, CommonError c2 m2 => String.eqb c1 c2 && String.eqb m1 m2
  | _, _ => false
  end.

Definition noBLOBBERS : error := ErrorsNew "No Blobbers set in this allocation".
Definition notInitialized : error :=
  CommonError "sdk_not_initialized"
    "Please call InitStorageSDK Init and use GetAllocation to get the allocation object".
Definition underRepair : error :=
  CommonError "allocaton_under_repair" "Allocation is under repair, Please try again later".

Inductive result (A : Type) : Type :=
| Ok (a : A)
| Err (e : error).
Arguments Ok {A} a.
Arguments Err {A} e.

Definition result_error {A} (r : result A) : option error :=
  match r with
  | Ok _ => None
  | Err e => Some e
  end.

(** ** Data model *)

(** [blockchain.StorageNode]: a blobber descriptor. *)
Record StorageNode : Type := { ID : string; Baseurl : string }.

(** [os.FileInfo], as far as [allocation.go] looks at it. *)
Record FileInfo : Type := { Size : Z; IsDir : bool }.

(** Modelled from the spec: [marker.AuthTicket] is declared in package
    [marker]; the decoded capability carries the file path hash, the
    recipient client id, the optional recipient encryption key, the
    reference type and the expiry. *)
Record AuthTicket : Type := {
  FilePathHash : string;
  ClientID : string;
  ReEncryptionKey : string;
  RefType : string;
  Expiration : Z
}.

(** [fileref.CommitMetaTxn] *)
Record CommitMetaTxn : Type := { RefID : Z; TxnID : string }.

(** The fields of the quorum-selected file reference that [allocation.go]
    reads. *)
Module FileRef.
Record t : Type := mk {
  Type_ : string;
  Name : string;
  ActualFileHash : string;
  LookupHash : string;
  MimeType : string;
  Path : string;
  ActualFileSize : Z;
  EncryptedKey : string;
  CommitMetaTxns : list CommitMetaTxn
}.
End FileRef.

Module ConsolidatedFileMeta.
Record t : Type := mk {
  Name : string;
  Type_ : string;
  Path : string;
  LookupHash : string;
  Hash : string;
  MimeType : string;
  Size : Z;
  EncryptedKey : string;
  CommitMetaTxns : list CommitMetaTxn
}.
End ConsolidatedFileMeta.

(** Values that [allocation.go] only hands through. *)
Inductive ListResult : Type := ListResultRef (id : nat).
Inductive FileStatsMap : Type := FileStatsRef (id : nat).
Inductive StatusCallback : Type := StatusCallbackRef (id : nat).

(** [DOWNLOAD_CONTENT_FULL] and [DOWNLOAD_CONTENT_THUMB], the only content
    modes the download builders are called with. *)
Inductive ContentMode : Type := DOWNLOAD_CONTENT_FULL | DOWNLOAD_CONTENT_THUMB.

Module Allocation.
Record t : Type := mk {
  ID : string;
  Tx : string;
  DataShards : Z;
  ParityShards : Z;
  Blobbers : list StorageNode;
  initialized : bool;
  underRepair : bool
}.
End Allocation.

(** *** Request objects *)

Module UploadFileMeta.
Record t : Type := mk {
  Name : string;
  Size : Z;
  Path : string;
  ThumbnailSize : Z
}.
End UploadFileMeta.

Module UploadRequest.
Record t : Type := mk {
  filepath : string;
  remotefilepath : string;
  thumbnailpath : string;
  filemeta : UploadFileMeta.t;
  remaining : Z;
  thumbRemaining : Z;
  isRepair : bool;
  isUpdate : bool;
  connectionID : string;
  statusCallback : StatusCallback;
  datashards : Z;
  parityshards : Z;
  uploadMask : Z;
  consensusThresh : float32;
  fullconsensus : float32;
  isEncrypted : bool
}.
End UploadRequest.

Module DownloadRequest.
Record t : Type := mk {
  allocationID : string;
  allocationTx : string;
  localpath : string;
  remotefilepath : string;
  remotefilepathhash : string;
  authTicket : option AuthTicket;
  statusCallback : StatusCallback;
  downloadMask : Z;
  blobbers : list StorageNode;
  datashards : Z;
  parityshards : Z;
  numBlocks : Z;
  consensusThresh : float32;
  fullconsensus : float32;
  contentMode : ContentMode
}.
End DownloadRequest.

Module ListRequest.
Record t : Type := mk {
  allocationID : string;
  allocationTx : string;
  blobbers : list StorageNode;
  consensusThresh : float32;
  fullconsensus : float32;
  remotefilepath : string;
  remotefilepathhash : string;
  authToken : option AuthTicket
}.
End ListRequest.

Module DeleteRequest.
Record t : Type := mk {
  blobbers : list StorageNode;
  allocationID : string;
  allocationTx : string;
  consensusThresh : float32;
  fullconsensus : float32;
  remotefilepath : string;
  deleteMask : Z;
  listMask : Z;
  connectionID : string
}.
End DeleteRequest.

Module RenameRequest.
Record t : Type := mk {
  blobbers : list StorageNode;
  allocationID : string;
  allocationTx : string;
  newName : string;
  consensusThresh : float32;
  fullconsensus : float32;
  remotefilepath : string;
  renameMask : Z;
  connectionID : string
}.
End RenameRequest.

Module CopyRequest.
Record t : Type := mk {
  blobbers : list StorageNode;
  allocationID : string;
  allocationTx : string;
  destPath : string;
  consensusThresh : float32;
  fullconsensus : float32;
  remotefilepath : string;
  copyMask : Z;
  connectionID : string
}.
End CopyRequest.

Module ShareRequest.
Record t : Type := mk {
  allocationID : string;
  blobbers : list StorageNode;
  remotefilepath : string;
  remotefilename : string;
  refType : string
}.
End ShareRequest.

Module CommitMetaRequest.
Record t : Type := mk {
  CrudType : string;
  MetaData : option ConsolidatedFileMeta.t;
  status : StatusCallback;
  authToken : string
}.
End CommitMetaRequest.

(** ** Interaction trace *)

(** The closures started with [go]: the two enqueue-and-register closures
    and the commit-meta worker. *)
Inductive Goroutine : Type :=
| GoEnqueueUpload (key : string) (r : UploadRequest.t)
| GoEnqueueDownload (key : string) (r : DownloadRequest.t)
| GoCommitMeta (r : CommitMetaRequest.t).

Definition ConsensusAnswer : Type := (Z * option FileRef.t * option error)%type.

Inductive Event : Type :=
| EvStat (path : string) (r : FileInfo + string)
| EvMkdirAll (path : string)
| EvNewConnectionId (id : string)
| EvGetFileConsensus (q : ListRequest.t) (r : ConsensusAnswer)
| EvGetList (q : ListRequest.t) (r : option ListResult)
| EvGetFileStats (q : ListRequest.t) (r : option FileStatsMap)
| EvProcessDelete (q : DeleteRequest.t) (r : option error)
| EvProcessRename (q : RenameRequest.t) (r : option error)
| EvProcessCopy (q : CopyRequest.t) (r : option error)
| EvShareTicket (q : ShareRequest.t) (client : string) (r : result string)
| EvShareTicketEncrypted (q : ShareRequest.t) (client key : string) (r : result string)
| EvGo (g : Goroutine).

(** Calls into the local file system or the id generator; every other event
    reaches the blobbers or hands work to a goroutine that does. *)
Definition is_local (ev : Event) : bool :=
  match ev with
  | EvStat _ _ | EvMkdirAll _ | EvNewConnectionId _ => true
  | _ => false
  end.

Definition is_go (ev : Event) : bool :=
  match ev with
  | EvGo _ => true
  | _ => false
  end.

Definition is_delete (ev : Event) : bool :=
  match ev with
  | EvProcessDelete _ _ => true
  | _ => false
  end.

(** The consensus pair carried by the request object of an event. *)
Definition event_consensus (ev : Event) : option (float32 * float32) :=
  match ev with
  | EvGetFileConsensus q _ | EvGetList q _ | EvGetFileStats q _ =>
      Some (ListRequest.consensusThresh q, ListRequest.fullconsensus q)
  | EvProcessDelete q _ =>
      Some (DeleteRequest.consensusThresh q, DeleteRequest.fullconsensus q)
  | EvProcessRename q _ =>
      Some (RenameRequest.consensusThresh q, RenameRequest.fullconsensus q)
  | EvProcessCopy q _ =>
      Some (CopyRequest.consensusThresh q, CopyRequest.fullconsensus q)
  | EvGo (GoEnqueueUpload _ q) =>
      Some (UploadRequest.consensusThresh q, UploadRequest.fullconsensus q)
  | EvGo (GoEnqueueDownload _ q) =>
      Some (DownloadRequest.consensusThresh q, DownloadRequest.fullconsensus q)
  | _ => None
  end.

Definition is_repair_upload (ev : Event) : bool :=
  match ev with
  | EvGo (GoEnqueueUpload _ q) => UploadRequest.isRepair q
  | _ => false
  end.

(** ** Environment and state *)

(** The collaborators of [allocation.go].  An oracle sees the trace so far,
    so its answers may change from call to call. *)
Record Env : Type := {
  os_Stat : list Event -> string -> FileInfo + string;
  RemoteClean : string -> string;
  IsRemoteAbs : string -> bool;
  GetFullRemotePath : string -> string -> string;
  NewConnectionId : list Event -> string;
  base64_DecodeString : string -> string + string;
  json_Unmarshal : string -> AuthTicket + string;
  getFileConsensusFromBlobbers : list Event -> ListRequest.t -> ConsensusAnswer;
  GetListFromBlobbers : list Event -> ListRequest.t -> option ListResult;
  getFileStatsFromBlobbers : list Event -> ListRequest.t -> option FileStatsMap;
  ProcessDelete : list Event -> DeleteRequest.t -> option error;
  ProcessRename : list Event -> RenameRequest.t -> option error;
  ProcessCopy : list Event -> CopyRequest.t -> option error;
  share_GetAuthTicket : list Event -> ShareRequest.t -> string -> result string;
  share_GetAuthTicketForEncryptedFile :
    list Event -> ShareRequest.t -> string -> string -> result string;
  fileref_DIRECTORY : string;
  fileref_FILE : string
}.

Record State : Type := {
  alloc : Allocation.t;
  sdkInitialized : bool;       (* package variable *)
  numBlockDownloads : Z;       (* package variable *)
  trace : list Event
}.

Definition emitted (s s' : State) : list Event :=
  skipn (List.length (trace s)) (trace s').

(** ** A state monad over [State] *)

Definition M (A : Type) : Type := State -> A * State.

Definition ret {A : Type} (a : A) : M A := fun s => (a, s).

Definition bind {A B : Type} (m : M A) (k : A -> M B) : M B :=
  fun s => let (a, s') := m s in k a s'.

Declare Scope go_scope.
Delimit Scope go_scope with go.
Notation "x <- m ;; k" := (bind m (fun x => k))
  (at level 100, m at next level, right associativity) : go_scope.
Notation "' p <- m ;; k" := (bind m (fun x => match x with p => k end))
  (at level 100, p pattern, m at next level, right associativity) : go_scope.
Notation "m ;; k" := (bind m (fun _ => k))
  (at level 100, right associativity) : go_scope.
Local Open Scope go_scope.

Definition log (ev : Event) : M unit :=
  fun s =>
    (tt, {| alloc := alloc s;
            sdkInitialized := sdkInitialized s;
            numBlockDownloads := numBlockDownloads s;
            trace := trace s ++ [ev] |}).

(** Ask an oracle and record the call with its answer. *)
Definition call {R : Type} (oracle : list Event -> R) (ev : R -> Event) : M R :=
  fun s => let r := oracle (trace s) in bind (log (ev r)) (fun _ => ret r) s.

Definition self : M Allocation.t := fun s => (alloc s, s).

Definition go_ (g : Goroutine) : M unit := log (EvGo g).

Definition set_uploadMask (m : Z) (r : UploadRequest.t) : UploadRequest.t :=
  UploadRequest.mk
    (UploadRequest.filepath r) (UploadRequest.remotefilepath r)
    (UploadRequest.thumbnailpath r) (UploadRequest.filemeta r)
    (UploadRequest.remaining r) (UploadRequest.thumbRemaining r)
    (UploadRequest.isRepair r) (UploadRequest.isUpdate r)
    (UploadRequest.connectionID r) (UploadRequest.statusCallback r)
    (UploadRequest.datashards r) (UploadRequest.parityshards r)
    m
    (UploadRequest.consensusThresh r) (UploadRequest.fullconsensus r)
    (UploadRequest.isEncrypted r).

Definition set_fullconsensus (f : float32) (r : UploadRequest.t) : UploadRequest.t :=
  UploadRequest.mk
    (UploadRequest.filepath r) (UploadRequest.remotefilepath r)
    (UploadRequest.thumbnailpath r) (UploadRequest.filemeta r)
    (UploadRequest.remaining r) (UploadRequest.thumbRemaining r)
    (UploadRequest.isRepair r) (UploadRequest.isUpdate r)
    (UploadRequest.connectionID r) (UploadRequest.statusCallback r)
    (UploadRequest.datashards r) (UploadRequest.parityshards r)
    (UploadRequest.uploadMask r)
    (UploadRequest.consensusThresh r) f
    (UploadRequest.isEncrypted r).

Definition blobberCount (a : Allocation.t) : Z :=
  Z.of_nat (List.length (Allocation.Blobbers a)).

Definition errFileNotFound : error := ErrorsNew "File not found for the given remotepath".
Definition errNoRepairRequired : error := ErrorsNew "No repair required".

(** ** The operations of [Allocation] *)

Section Operations.
Context (env : Env).

Definition UnderRepair : M bool :=
  fun s => (Allocation.underRepair (alloc s), s).

Definition UpdateRepairStatus (value : bool) : M unit :=
  fun s =>
    let a := alloc s in
    (tt, {| alloc := Allocation.mk (Allocation.ID a) (Allocation.Tx a)
                       (Allocation.DataShards a) (Allocation.ParityShards a)
                       (Allocation.Blobbers a) (Allocation.initialized a) value;
            sdkInitialized := sdkInitialized s;
            numBlockDownloads := numBlockDownloads s;
            trace := trace s |}).

Definition isInitialized : M bool :=
  fun s => (Allocation.initialized (alloc s) && sdkInitialized s, s).

Definition packageNumBlockDownloads : M Z :=
  fun s => (numBlockDownloads s, s).

Definition Stat (path : string) : M (FileInfo + string) :=
  call (fun tr => os_Stat env tr path) (EvStat path).

Definition newConnectionId : M string :=
  call (NewConnectionId env) EvNewConnectionId.

Definition getFileConsensus (q : ListRequest.t) : M ConsensusAnswer :=
  call (fun tr => getFileConsensusFromBlobbers env tr q) (EvGetFileConsensus q).

Definition getList (q : ListRequest.t) : M (option ListResult) :=
  call (fun tr => GetListFromBlobbers env tr q) (EvGetList q).

Definition getFileStats (q : ListRequest.t) : M (option FileStatsMap) :=
  call (fun tr => getFileStatsFromBlobbers env tr q) (EvGetFileStats q).

(** The list request every listing operation builds: path and ticket
    fields differ, the allocation fields and the consensus pair do not. *)
Definition newListRequest (a : Allocation.t) (path pathhash : string)
    (tok : option AuthTicket) : ListRequest.t :=
  {| ListRequest.allocationID := Allocation.ID a;
     ListRequest.allocationTx := Allocation.Tx a;
     ListRequest.blobbers := Allocation.Blobbers a;
     ListRequest.consensusThresh :=
       consensusThreshOf (Allocation.DataShards a) (Allocation.ParityShards a);
     ListRequest.fullconsensus :=
       fullconsensusOf (Allocation.DataShards a) (Allocation.ParityShards a);
     ListRequest.remotefilepath := path;
     ListRequest.remotefilepathhash := pathhash;
     ListRequest.authToken := tok |}.

(** The closure [go func() { a.uploadChan <- uploadReq; ... }()]. *)
Definition enqueueUpload (localpath : string) (uploadReq : UploadRequest.t)
    : M (option error) :=
  go_ (GoEnqueueUpload localpath uploadReq) ;;
  ret None.

Definition uploadOrUpdateFile (localpath remotepath : string)
    (status : StatusCallback) (isUpdate : bool) (thumbnailpath : string)
    (encryption isRepair : bool) : M (option error) :=
  init <- isInitialized ;;
  if negb init then ret (Some notInitialized) else
  rep <- UnderRepair ;;
  if rep then ret (Some underRepair) else
  st <- Stat localpath ;;
  match st with
  | inr msg => ret (Some (ErrorsNew ("Local file error: " ++ msg)))
  | inl fileInfo =>
    ' (thumbnailSize, thumbnailpath) <-
      (if 0 <? len thumbnailpath then
         st' <- Stat thumbnailpath ;;
         match st' with
         | inr _ => ret (0, "")
         | inl fileInfo' => ret (Size fileInfo', thumbnailpath)
         end
       else ret (0, thumbnailpath)) ;;
    let remotepath := RemoteClean env remotepath in
    if negb (IsRemoteAbs env remotepath)
    then ret (Some (CommonError "invalid_path" "Path should be valid and absolute"))
    else
    let remotepath := GetFullRemotePath env localpath remotepath in
    let fileName := snd (filepath_Split remotepath) in
    connectionID <- newConnectionId ;;
    a <- self ;;
    let uploadReq :=
      {| UploadRequest.filepath := localpath;
         UploadRequest.remotefilepath := remotepath;
         UploadRequest.thumbnailpath := thumbnailpath;
         UploadRequest.filemeta :=
           {| UploadFileMeta.Name := fileName;
              UploadFileMeta.Size := Size fileInfo;
              UploadFileMeta.Path := remotepath;
              UploadFileMeta.ThumbnailSize := thumbnailSize |};
         UploadRequest.remaining := Size fileInfo;
         UploadRequest.thumbRemaining := thumbnailSize;
         UploadRequest.isRepair := isRepair;
         UploadRequest.isUpdate := isUpdate;
         UploadRequest.connectionID := connectionID;
         UploadRequest.statusCallback := status;
         UploadRequest.datashards := Allocation.DataShards a;
         UploadRequest.parityshards := Allocation.ParityShards a;
         UploadRequest.uploadMask := fullMask (blobberCount a);
         UploadRequest.consensusThresh :=
           consensusThreshOf (Allocation.DataShards a) (Allocation.ParityShards a);
         UploadRequest.fullconsensus :=
           fullconsensusOf (Allocation.DataShards a) (Allocation.ParityShards a);
         UploadRequest.isEncrypted := encryption |} in
    if UploadRequest.isRepair uploadReq then
      let listReq := newListRequest a remotepath "" None in
      ' (found, fileRef, _) <- getFileConsensus listReq ;;
      match fileRef with
      | None => ret (Some errFileNotFound)
      | Some _ =>
        if found =? UploadRequest.uploadMask uploadReq
        then ret (Some errNoRepairRequired)
        else
          let uploadReq :=
            set_uploadMask (complement (UploadRequest.uploadMask uploadReq) found)
              uploadReq in
          let uploadReq :=
            set_fullconsensus
              (f32_sub (UploadRequest.fullconsensus uploadReq)
                 (f32_of_int (TrailingZeros32 (UploadRequest.uploadMask uploadReq))))
              uploadReq in
          UpdateRepairStatus true ;;
          enqueueUpload localpath uploadReq
      end
    else enqueueUpload localpath uploadReq
  end.

Definition UpdateFile (localpath remotepath : string) (status : StatusCallback) :=
  uploadOrUpdateFile localpath remotepath status true "" false false.

Definition UploadFile (localpath remotepath : string) (status : StatusCallback) :=
  uploadOrUpdateFile localpath remotepath status false "" false false.

Definition RepairFile (localpath remotepath : string) (status : StatusCallback) :=
  uploadOrUpdateFile localpath remotepath status false "" false true.

Definition UpdateFileWithThumbnail (localpath remotepath thumbnailpath : string)
    (status : StatusCallback) :=
  uploadOrUpdateFile localpath remotepath status true thumbnailpath false false.

Definition UploadFileWithThumbnail (localpath remotepath thumbnailpath : string)
    (status : StatusCallback) :=
  uploadOrUpdateFile localpath remotepath status false thumbnailpath false false.

Definition EncryptAndUpdateFile (localpath remotepath : string)
    (status : StatusCallback) :=
  uploadOrUpdateFile localpath remotepath status true "" true false.

Definition EncryptAndUploadFile (localpath remotepath : string)
    (status : StatusCallback) :=
  uploadOrUpdateFile localpath remotepath status false "" true false.

Definition EncryptAndUpdateFileWithThumbnail
    (localpath remotepath thumbnailpath : string) (status : StatusCallback) :=
  uploadOrUpdateFile localpath remotepath status true thumbnailpath true false.

Definition EncryptAndUploadFileWithThumbnail
    (localpath remotepath thumbnailpath : string) (status : StatusCallback) :=
  uploadOrUpdateFile localpath remotepath status false thumbnailpath true false.

(** *** Download *)

Definition newDownloadRequest (a : Allocation.t) (numBlocks : Z)
    (localPath remotePath pathhash : string) (tok : option AuthTicket)
    (status : StatusCallback) (contentMode : ContentMode) : DownloadRequest.t :=
  {| DownloadRequest.allocationID := Allocation.ID a;
     DownloadRequest.allocationTx := Allocation.Tx a;
     DownloadRequest.localpath := localPath;
     DownloadRequest.remotefilepath := remotePath;
     DownloadRequest.remotefilepathhash := pathhash;
     DownloadRequest.authTicket := tok;
     DownloadRequest.statusCallback := status;
     DownloadRequest.downloadMask := fullMask (blobberCount a);
     DownloadRequest.blobbers := Allocation.Blobbers a;
     DownloadRequest.datashards := Allocation.DataShards a;
     DownloadRequest.parityshards := Allocation.ParityShards a;
     DownloadRequest.numBlocks := numBlocks;
     DownloadRequest.consensusThresh :=
       consensusThreshOf (Allocation.DataShards a) (Allocation.ParityShards a);
     DownloadRequest.fullconsensus :=
       fullconsensusOf (Allocation.DataShards a) (Allocation.ParityShards a);
     DownloadRequest.contentMode := contentMode |}.

(** The local-path block shared by both download builders: an existing
    local path must be a directory and the file inside it must not exist
    yet; [rest] is the code after the block, run on the final path. *)
Definition withLocalPath (localPath remoteName : string)
    (rest : string -> M (option error)) : M (option error) :=
  st <- Stat localPath ;;
  match st with
  | inl stat =>
      if negb (IsDir stat)
      then ret (Some (ErrorsNew ("Local path is not a directory '" ++ localPath ++ "'")))
      else
        let localPath := TrimRight_slash localPath in
        let rFile := snd (filepath_Split remoteName) in
        let localPath := localPath ++ "/" ++ rFile in
        st' <- Stat localPath ;;
        match st' with
        | inl _ =>
            ret (Some (ErrorsNew ("Local file already exists '" ++ localPath ++ "'")))
        | inr _ => rest localPath
        end
  | inr _ => rest localPath
  end.

Definition downloadFile (localPath remotePath : string) (contentMode : ContentMode)
    (status : StatusCallback) : M (option error) :=
  init <- isInitialized ;;
  if negb init then ret (Some notInitialized) else
  rep <- UnderRepair ;;
  if rep then ret (Some underRepair) else
  withLocalPath localPath remotePath (fun localPath =>
    let lPath := fst (filepath_Split localPath) in
    log (EvMkdirAll lPath) ;;
    a <- self ;;
    if blobberCount a <=? 1 then ret (Some noBLOBBERS) else
    n <- packageNumBlockDownloads ;;
    let downloadReq :=
      newDownloadRequest a n localPath remotePath "" None status contentMode in
    go_ (GoEnqueueDownload remotePath downloadReq) ;;
    ret None).

Definition DownloadFile (localPath remotePath : string) (status : StatusCallback) :=
  downloadFile localPath remotePath DOWNLOAD_CONTENT_FULL status.

Definition DownloadThumbnail (localPath remotePath : string) (status : StatusCallback) :=
  downloadFile localPath remotePath DOWNLOAD_CONTENT_THUMB status.

(** [base64.StdEncoding.DecodeString] followed by [json.Unmarshal]. *)
Definition decodeAuthTicket (authTicket : string) : result AuthTicket :=
  match base64_DecodeString env authTicket with
  | inr msg =>
      Err (CommonError "auth_ticket_decode_error"
             ("Error decoding the auth ticket." ++ msg))
  | inl sEnc =>
      match json_Unmarshal env sEnc with
      | inr msg =>
          Err (CommonError "auth_ticket_decode_error"
                 ("Error unmarshaling the auth ticket." ++ msg))
      | inl at_ => Ok at_
      end
  end.

Definition downloadFromAuthTicket
    (localPath authTicket remoteLookupHash remoteFilename : string)
    (contentMode : ContentMode) (status : StatusCallback) : M (option error) :=
  init <- isInitialized ;;
  if negb init then ret (Some notInitialized) else
  rep <- UnderRepair ;;
  if rep then ret (Some underRepair) else
  match decodeAuthTicket authTicket with
  | Err e => ret (Some e)
  | Ok at_ =>
    withLocalPath localPath remoteFilename (fun localPath =>
      a <- self ;;
      if blobberCount a <=? 1 then ret (Some noBLOBBERS) else
      n <- packageNumBlockDownloads ;;
      let downloadReq :=
        newDownloadRequest a n localPath "" remoteLookupHash (Some at_) status
          contentMode in
      go_ (GoEnqueueDownload remoteLookupHash downloadReq) ;;
      ret None)
  end.

Definition DownloadThumbnailFromAuthTicket
    (localPath authTicket remoteLookupHash remoteFilename : string)
    (status : StatusCallback) :=
  downloadFromAuthTicket localPath authTicket remoteLookupHash remoteFilename
    DOWNLOAD_CONTENT_THUMB status.

Definition DownloadFromAuthTicket
    (localPath authTicket remoteLookupHash remoteFilename : string)
    (status : StatusCallback) :=
  downloadFromAuthTicket localPath authTicket remoteLookupHash remoteFilename
    DOWNLOAD_CONTENT_FULL status.

(** *** Listing, metadata, statistics *)

Definition errInvalidList : error := CommonError "invalid_path" "Invalid path for the list".
Definition errNotAbsolute : error :=
  CommonError "invalid_path" "Path should be valid and absolute".

Definition ListDirFromAuthTicket (authTicket lookupHash : string)
    : M (result ListResult) :=
  init <- isInitialized ;;
  if negb init then ret (Err notInitialized) else
  match decodeAuthTicket authTicket with
  | Err e => ret (Err e)
  | Ok at_ =>
    if (len (FilePathHash at_) =? 0) || (len lookupHash =? 0)
    then ret (Err errInvalidList)
    else
      a <- self ;;
      let listReq := newListRequest a "" lookupHash (Some at_) in
      ref <- getList listReq ;;
      match ref with
      | Some r => ret (Ok r)
      | None =>
          ret (Err (CommonError "list_request_failed"
                      "Failed to get list response from the blobbers"))
      end
  end.

Definition ListDir (path : string) : M (result ListResult) :=
  init <- isInitialized ;;
  if negb init then ret (Err notInitialized) else
  if len path =? 0 then ret (Err errInvalidList) else
  let path := RemoteClean env path in
  if negb (IsRemoteAbs env path) then ret (Err errNotAbsolute) else
  a <- self ;;
  let listReq := newListRequest a path "" None in
  ref <- getList listReq ;;
  match ref with
  | Some r => ret (Ok r)
  | None =>
      ret (Err (CommonError "list_request_failed"
                  "Failed to get list response from the blobbers"))
  end.

Definition errFileMeta : error :=
  CommonError "file_meta_error" "Error getting the file meta data from blobbers".

Definition GetFileMeta (path : string) : M (result ConsolidatedFileMeta.t) :=
  a <- self ;;
  let listReq := newListRequest a path "" None in
  ' (_, ref, _) <- getFileConsensus listReq ;;
  match ref with
  | Some ref =>
      ret (Ok {| ConsolidatedFileMeta.Name := FileRef.Name ref;
                 ConsolidatedFileMeta.Type_ := FileRef.Type_ ref;
                 ConsolidatedFileMeta.Path := FileRef.Path ref;
                 ConsolidatedFileMeta.LookupHash := FileRef.LookupHash ref;
                 ConsolidatedFileMeta.Hash := FileRef.ActualFileHash ref;
                 ConsolidatedFileMeta.MimeType := FileRef.MimeType ref;
                 ConsolidatedFileMeta.Size := FileRef.ActualFileSize ref;
                 ConsolidatedFileMeta.EncryptedKey := FileRef.EncryptedKey ref;
                 ConsolidatedFileMeta.CommitMetaTxns := FileRef.CommitMetaTxns ref |})
  | None => ret (Err errFileMeta)
  end.

Definition GetFileMetaFromAuthTicket (authTicket lookupHash : string)
    : M (result ConsolidatedFileMeta.t) :=
  match decodeAuthTicket authTicket with
  | Err e => ret (Err e)
  | Ok at_ =>
    if (len (FilePathHash at_) =? 0) || (len lookupHash =? 0)
    then ret (Err errInvalidList)
    else
      a <- self ;;
      let listReq := newListRequest a "" lookupHash (Some at_) in
      ' (_, ref, _) <- getFileConsensus listReq ;;
      match ref with
      | Some ref =>
          ret (Ok {| ConsolidatedFileMeta.Name := FileRef.Name ref;
                     ConsolidatedFileMeta.Type_ := FileRef.Type_ ref;
                     ConsolidatedFileMeta.Path := FileRef.Path ref;
                     ConsolidatedFileMeta.LookupHash := FileRef.LookupHash ref;
                     ConsolidatedFileMeta.Hash := FileRef.ActualFileHash ref;
                     ConsolidatedFileMeta.MimeType := FileRef.MimeType ref;
                     ConsolidatedFileMeta.Size := FileRef.ActualFileSize ref;
                     ConsolidatedFileMeta.EncryptedKey := "";
                     ConsolidatedFileMeta.CommitMetaTxns := FileRef.CommitMetaTxns ref |})
      | None => ret (Err errFileMeta)
      end
  end.

Definition GetFileStats (path : string) : M (result FileStatsMap) :=
  init <- isInitialized ;;
  if negb init then ret (Err notInitialized) else
  if len path =? 0 then ret (Err errInvalidList) else
  let path := RemoteClean env path in
  if negb (IsRemoteAbs env path) then ret (Err errNotAbsolute) else
  a <- self ;;
  let listReq := newListRequest a path "" None in
  ref <- getFileStats listReq ;;
  match ref with
  | Some r => ret (Ok r)
  | None =>
      ret (Err (CommonError "file_stats_request_failed"
                  "Failed to get file stats response from the blobbers"))
  end.

(** *** Delete, rename, copy, move *)

Definition DeleteFile (path : string) : M (option error) :=
  init <- isInitialized ;;
  if negb init then ret (Some notInitialized) else
  rep <- UnderRepair ;;
  if rep then ret (Some underRepair) else
  if len path =? 0 then ret (Some errInvalidList) else
  let path := RemoteClean env path in
  if negb (IsRemoteAbs env path) then ret (Some errNotAbsolute) else
  a <- self ;;
  connectionID <- newConnectionId ;;
  let req :=
    {| DeleteRequest.blobbers := Allocation.Blobbers a;
       DeleteRequest.allocationID := Allocation.ID a;
       DeleteRequest.allocationTx := Allocation.Tx a;
       DeleteRequest.consensusThresh :=
         consensusThreshOf (Allocation.DataShards a) (Allocation.ParityShards a);
       DeleteRequest.fullconsensus :=
         fullconsensusOf (Allocation.DataShards a) (Allocation.ParityShards a);
       DeleteRequest.remotefilepath := path;
       DeleteRequest.deleteMask := 0;
       DeleteRequest.listMask := 0;
       DeleteRequest.connectionID := connectionID |} in
  call (fun tr => ProcessDelete env tr req) (EvProcessDelete req).

Definition RenameObject (path destName : string) : M (option error) :=
  init <- isInitialized ;;
  if negb init then ret (Some notInitialized) else
  rep <- UnderRepair ;;
  if rep then ret (Some underRepair) else
  if len path =? 0 then ret (Some errInvalidList) else
  let path := RemoteClean env path in
  if negb (IsRemoteAbs env path) then ret (Some errNotAbsolute) else
  a <- self ;;
  connectionID <- newConnectionId ;;
  let req :=
    {| RenameRequest.blobbers := Allocation.Blobbers a;
       RenameRequest.allocationID := Allocation.ID a;
       RenameRequest.allocationTx := Allocation.Tx a;
       RenameRequest.newName := destName;
       RenameRequest.consensusThresh :=
         consensusThreshOf (Allocation.DataShards a) (Allocation.ParityShards a);
       RenameRequest.fullconsensus :=
         fullconsensusOf (Allocation.DataShards a) (Allocation.ParityShards a);
       RenameRequest.remotefilepath := path;
       RenameRequest.renameMask := 0;
       RenameRequest.connectionID := connectionID |} in
  call (fun tr => ProcessRename env tr req) (EvProcessRename req).

Definition CopyObject (path destPath : string) : M (option error) :=
  init <- isInitialized ;;
  if negb init then ret (Some notInitialized) else
  rep <- UnderRepair ;;
  if rep then ret (Some underRepair) else
  if (len path =? 0) || (len destPath =? 0)
  then ret (Some (CommonError "invalid_path" "Invalid path for copy"))
  else
  let path := RemoteClean env path in
  if negb (IsRemoteAbs env path) then ret (Some errNotAbsolute) else
  a <- self ;;
  connectionID <- newConnectionId ;;
  let req :=
    {| CopyRequest.blobbers := Allocation.Blobbers a;
       CopyRequest.allocationID := Allocation.ID a;
       CopyRequest.allocationTx := Allocation.Tx a;
       CopyRequest.destPath := destPath;
       CopyRequest.consensusThresh :=
         consensusThreshOf (Allocation.DataShards a) (Allocation.ParityShards a);
       CopyRequest.fullconsensus :=
         fullconsensusOf (Allocation.DataShards a) (Allocation.ParityShards a);
       CopyRequest.remotefilepath := path;
       CopyRequest.copyMask := 0;
       CopyRequest.connectionID := connectionID |} in
  call (fun tr => ProcessCopy env tr req) (EvProcessCopy req).

Definition MoveObject (path destPath : string) : M (option error) :=
  err <- CopyObject path destPath ;;
  match err with
  | Some e => ret (Some e)
  | None => DeleteFile path
  end.

(** *** Sharing and metadata commits *)

Definition GetAuthTicket
    (path filename referenceType refereeClientID refereeEncryptionPublicKey : string)
    : M (result string) :=
  init <- isInitialized ;;
  if negb init then ret (Err notInitialized) else
  if len path =? 0 then ret (Err errInvalidList) else
  let path := RemoteClean env path in
  if negb (IsRemoteAbs env path) then ret (Err errNotAbsolute) else
  a <- self ;;
  let shareReq :=
    {| ShareRequest.allocationID := Allocation.ID a;
       ShareRequest.blobbers := Allocation.Blobbers a;
       ShareRequest.remotefilepath := path;
       ShareRequest.remotefilename := filename;
       ShareRequest.refType :=
         if String.eqb referenceType (fileref_DIRECTORY env)
         then fileref_DIRECTORY env
         else fileref_FILE env |} in
  if 0 <? len refereeEncryptionPublicKey then
    call (fun tr =>
            share_GetAuthTicketForEncryptedFile env tr shareReq refereeClientID
              refereeEncryptionPublicKey)
         (EvShareTicketEncrypted shareReq refereeClientID refereeEncryptionPublicKey)
  else
    call (fun tr => share_GetAuthTicket env tr shareReq refereeClientID)
         (EvShareTicket shareReq refereeClientID).

Definition GetAuthTicketForShare
    (path filename referenceType refereeClientID : string) : M (result string) :=
  GetAuthTicket path filename referenceType refereeClientID "".

(** The tail of [CommitMetaTransaction], after the metadata is resolved. *)
Definition commitMeta (crudOperation authTicket : string)
    (fileMeta : option ConsolidatedFileMeta.t) (status : StatusCallback)
    : M (option error) :=
  let req :=
    {| CommitMetaRequest.CrudType := crudOperation;
       CommitMetaRequest.MetaData := fileMeta;
       CommitMetaRequest.status := status;
       CommitMetaRequest.authToken := authTicket |} in
  go_ (GoCommitMeta req) ;;
  ret None.

Definition CommitMetaTransaction (path crudOperation authTicket lookupHash : string)
    (fileMeta : option ConsolidatedFileMeta.t) (status : StatusCallback)
    : M (option error) :=
  init <- isInitialized ;;
  if negb init then ret (Some notInitialized) else
  rep <- UnderRepair ;;
  if rep then ret (Some underRepair) else
  match fileMeta with
  | Some _ => commitMeta crudOperation authTicket fileMeta status
  | None =>
      if 0 <? len path then
        r <- GetFileMeta path ;;
        match r with
        | Err e => ret (Some e)
        | Ok m => commitMeta crudOperation authTicket (Some m) status
        end
      else if 0 <? len authTicket then
        r <- GetFileMetaFromAuthTicket authTicket lookupHash ;;
        match r with
        | Err e => ret (Some e)
        | Ok m => commitMeta crudOperation authTicket (Some m) status
        end
      else commitMeta crudOperation authTicket None status
  end.

End Operations.

(** ** Every public operation behind one type *)

Inductive Op : Type :=
| OpUpdateFile (localpath remotepath : string) (status : StatusCallback)
| OpUploadFile (localpath remotepath : string) (status : StatusCallback)
| OpRepairFile (localpath remotepath : string) (status : StatusCallback)
| OpUpdateFileWithThumbnail (localpath remotepath thumbnailpath : string)
    (status : StatusCallback)
| OpUploadFileWithThumbnail (localpath remotepath thumbnailpath : string)
    (status : StatusCallback)
| OpEncryptAndUpdateFile (localpath remotepath : string) (status : StatusCallback)
| OpEncryptAndUploadFile (localpath remotepath : string) (status : StatusCallback)
| OpEncryptAndUpdateFileWithThumbnail (localpath remotepath thumbnailpath : string)
    (status : StatusCallback)
| OpEncryptAndUploadFileWithThumbnail (localpath remotepath thumbnailpath : string)
    (status : StatusCallback)
| OpDownloadFile (localPath remotePath : string) (status : StatusCallback)
| OpDownloadThumbnail (localPath remotePath : string) (status : StatusCallback)
| OpDownloadFromAuthTicket
    (localPath authTicket remoteLookupHash remoteFilename : string)
    (status : StatusCallback)
| OpDownloadThumbnailFromAuthTicket
    (localPath authTicket remoteLookupHash remoteFilename : string)
    (status : StatusCallback)
| OpListDir (path : string)
| OpListDirFromAuthTicket (authTicket lookupHash : string)
| OpGetFileMeta (path : string)
| OpGetFileMetaFromAuthTicket (authTicket lookupHash : string)
| OpGetFileStats (path : string)
| OpDeleteFile (path : string)
| OpRenameObject (path destName : string)
| OpMoveObject (path destPath : string)
| OpCopyObject (path destPath : string)
| OpGetAuthTicketForShare (path filename referenceType refereeClientID : string)
| OpGetAuthTicket
    (path filename referenceType refereeClientID refereeEncryptionPublicKey : string)
| OpCommitMetaTransaction (path crudOperation authTicket lookupHash : string)
    (fileMeta : option ConsolidatedFileMeta.t) (status : StatusCallback).

Definition errorOf {A : Type} (m : M (result A)) : M (option error) :=
  r <- m ;; ret (result_error r).

(** Run an operation and keep the error it returns ([None] for [nil]). *)
Definition exec (env : Env) (op : Op) : M (option error) :=
  match op with
  | OpUpdateFile l r st => UpdateFile env l r st
  | OpUploadFile l r st => UploadFile env l r st
  | OpRepairFile l r st => RepairFile env l r st
  | OpUpdateFileWithThumbnail l r t st => UpdateFileWithThumbnail env l r t st
  | OpUploadFileWithThumbnail l r t st => UploadFileWithThumbnail env l r t st
  | OpEncryptAndUpdateFile l r st => EncryptAndUpdateFile env l r st
  | OpEncryptAndUploadFile l r st => EncryptAndUploadFile env l r st
  | OpEncryptAndUpdateFileWithThumbnail l r t st =>
      EncryptAndUpdateFileWithThumbnail env l r t st
  | OpEncryptAndUploadFileWithThumbnail l r t st =>
      EncryptAndUploadFileWithThumbnail env l r t st
  | OpDownloadFile l r st => DownloadFile env l r st
  | OpDownloadThumbnail l r st => DownloadThumbnail env l r st
  | OpDownloadFromAuthTicket l t h f st => DownloadFromAuthTicket env l t h f st
  | OpDownloadThumbnailFromAuthTicket l t h f st =>
      DownloadThumbnailFromAuthTicket env l t h f st
  | OpListDir p => errorOf (ListDir env p)
  | OpListDirFromAuthTicket t h => errorOf (ListDirFromAuthTicket env t h)
  | OpGetFileMeta p => errorOf (GetFileMeta env p)
  | OpGetFileMetaFromAuthTicket t h => errorOf (GetFileMetaFromAuthTicket env t h)
  | OpGetFileStats p => errorOf (GetFileStats env p)
  | OpDeleteFile p => DeleteFile env p
  | OpRenameObject p d => RenameObject env p d
  | OpMoveObject p d => MoveObject env p d
  | OpCopyObject p d => CopyObject env p d
  | OpGetAuthTicketForShare p f t c => errorOf (GetAuthTicketForShare env p f t c)
  | OpGetAuthTicket p f t c k => errorOf (GetAuthTicket env p f t c k)
  | OpCommitMetaTransaction p c t h m st => CommitMetaTransaction env p c t h m st
  end.

Definition is_file_meta (op : Op) : bool :=
  match op with
  | OpGetFileMeta _ | OpGetFileMetaFromAuthTicket _ _ => true
  | _ => false
  end.

Definition is_download (op : Op) : bool :=
  match op with
  | OpDownloadFile _ _ _ | OpDownloadThumbnail _ _ _
  | OpDownloadFromAuthTicket _ _ _ _ _
  | OpDownloadThumbnailFromAuthTicket _ _ _ _ _ => true
  | _ => false
  end.

(** ** A concrete environment *)

Definition starts_with_slash (s : string) : bool :=
  match s with
  | String c _ => is_slash c
  | EmptyString => false
  end.

Definition emptyTicket : AuthTicket :=
  {| FilePathHash := ""; ClientID := ""; ReEncryptionKey := ""; RefType := "";
     Expiration := 0 |}.

Definition hashTicket : AuthTicket :=
  {| FilePathHash := "h"; ClientID := ""; ReEncryptionKey := ""; RefType := "";
     Expiration := 0 |}.

Definition dq : string := String (ascii_of_nat 34) EmptyString.

(** The JSON text of an object with the single member [file_path_hash]. *)
Definition hashTicketJson : string :=
  "{" ++ dq ++ "file_path_hash" ++ dq ++ ":" ++ dq ++ "h" ++ dq ++ "}".

(** One local file ["/home/u/a.txt"] of ten bytes exists; remote paths are
    already clean; the ticket ["e30="] is the base64 form of the JSON
    object ["{}"], which unmarshals to the zero ticket, and the second
    ticket is the base64 form of [hashTicketJson]; the consensus read
    answers [answer] and every mutating request succeeds. *)
Definition demoEnv (answer : ConsensusAnswer) : Env :=
  {| os_Stat := fun _ p =>
       if String.eqb p "/home/u/a.txt"
       then inl {| Size := 10; IsDir := false |}
       else inr "no such file or directory";
     RemoteClean := fun p => p;
     IsRemoteAbs := starts_with_slash;
     GetFullRemotePath := fun _ r => r;
     NewConnectionId := fun tr => "c";
     base64_DecodeString := fun t =>
       if String.eqb t "e30=" then inl "{}"
       else if String.eqb t "eyJmaWxlX3BhdGhfaGFzaCI6ImgifQ==" then inl hashTicketJson
       else inr "illegal base64 data";
     json_Unmarshal := fun b =>
       if String.eqb b "{}" then inl emptyTicket
       else if String.eqb b hashTicketJson then inl hashTicket
       else inr "invalid character";
     getFileConsensusFromBlobbers := fun _ _ => answer;
     GetListFromBlobbers := fun _ _ => Some (ListResultRef 0);
     getFileStatsFromBlobbers := fun _ _ => Some (FileStatsRef 0);
     ProcessDelete := fun _ _ => None;
     ProcessRename := fun _ _ => None;
     ProcessCopy := fun _ _ => None;
     share_GetAuthTicket := fun _ _ _ => Ok "ticket";
     share_GetAuthTicketForEncryptedFile := fun _ _ _ _ => Ok "ticket";
     fileref_DIRECTORY := "d";
     fileref_FILE := "f" |}.

Definition blobber (n : string) : StorageNode := {| ID := n; Baseurl := "http://" ++ n |}.

Definition demoAlloc (D P : Z) (blobbers : list StorageNode) (init : bool)
    : Allocation.t :=
  {| Allocation.ID := "alloc"; Allocation.Tx := "tx";
     Allocation.DataShards := D; Allocation.ParityShards := P;
     Allocation.Blobbers := blobbers;
     Allocation.initialized := init; Allocation.underRepair := false |}.

Definition demoState (a : Allocation.t) : State :=
  {| alloc := a; sdkInitialized := true; numBlockDownloads := 10; trace := [] |}.

Definition fourBlobbers : list StorageNode :=
  [blobber "b0"; blobber "b1"; blobber "b2"; blobber "b3"].

Definition demoRef : FileRef.t :=
  {| FileRef.Type_ := "f"; FileRef.Name := "a.txt";
     FileRef.ActualFileHash := "h-actual"; FileRef.LookupHash := "h-lookup";
     FileRef.MimeType := "text/plain"; FileRef.Path := "/a.txt";
     FileRef.ActualFileSize := 10; FileRef.EncryptedKey := "";
     FileRef.CommitMetaTxns := [] |}.

Definition noStatus : StatusCallback := StatusCallbackRef 0.

(** The download requests a run handed to the download queue. *)
Definition enqueuedDownloads (evs : list Event) : list DownloadRequest.t :=
  flat_map (fun ev => match ev with
                      | EvGo (GoEnqueueDownload _ r) => [r]
                      | _ => []
                      end) evs.

(** The upload requests a run handed to the upload queue. *)
Definition enqueuedUploads (evs : list Event) : list UploadRequest.t :=
  flat_map (fun ev => match ev with
                      | EvGo (GoEnqueueUpload _ r) => [r]
                      | _ => []
                      end) evs.

Definition uploadTargets (evs : list Event) : list (Z * float32) :=
  map (fun q => (UploadRequest.uploadMask q, UploadRequest.fullconsensus q))
      (enqueuedUploads evs).

(** *** Demo states and requests *)

Definition demoReady : State := demoState (demoAlloc 2 2 fourBlobbers true).

(** [InitAllocation] has run on the allocation but the SDK itself is not
    initialized, so [isInitialized] answers false. *)
Definition demoUninitialized : State :=
  {| alloc := demoAlloc 2 2 fourBlobbers true;
     sdkInitialized := false;
     numBlockDownloads := 10;
     trace := [] |}.

Definition oneBlobberReady : State := demoState (demoAlloc 1 0 [blobber "b0"] true).

Definition oneBlobberUninitialized : State :=
  demoState (demoAlloc 1 0 [blobber "b0"] false).

Definition demoListRequest : ListRequest.t :=
  {| ListRequest.allocationID := "alloc";
     ListRequest.allocationTx := "tx";
     ListRequest.blobbers := fourBlobbers;
     ListRequest.consensusThresh := consensusThreshOf 2 2;
     ListRequest.fullconsensus := fullconsensusOf 2 2;
     ListRequest.remotefilepath := "/a.txt";
     ListRequest.remotefilepathhash := "";
     ListRequest.authToken := None |}.

Definition demoDeleteRequest : DeleteRequest.t :=
  {| DeleteRequest.blobbers := fourBlobbers;
     DeleteRequest.allocationID := "alloc";
     DeleteRequest.allocationTx := "tx";
     DeleteRequest.consensusThresh := consensusThreshOf 2 2;
     DeleteRequest.fullconsensus := fullconsensusOf 2 2;
     DeleteRequest.remotefilepath := "/a.txt";
     DeleteRequest.deleteMask := 0;
     DeleteRequest.listMask := 0;
     DeleteRequest.connectionID := "c" |}.

(** ** Reading float32 values *)

(** [f] is exactly the integer [n]. *)
Definition f32_is_int (f : float32) (n : Z) : bool :=
  match f with
  | S754_zero _ => n =? 0
  | S754_finite sgn m e =>
      let v := if sgn then Z.neg m else Z.pos m in
      if 0 <=? e then v * 2 ^ e =? n else v =? n * 2 ^ (- e)
  | _ => false
  end.

(** [f] is a positive normal binary32 number [m * 2^e] within half a unit
    in the last place of the quotient [num / den]:
    [2 * |m * den - num * 2^(-e)| <= den]. *)
Definition f32_nearest (num den : Z) (f : float32) : bool :=
  match f with
  | S754_finite false m e =>
      (2 ^ 23 <=? Z.pos m) && (Z.pos m <? 2 ^ 24) && (e <=? 0)
      && (2 * Z.abs (Z.pos m * den - num * 2 ^ (- e)) <=? den)
  | _ => false
  end.

(** Shard counts a 32-bit mask can address. *)
Definition shard_counts : list Z := map Z.of_nat (seq 0 33).

Definition consensus_values_check : bool :=
  forallb (fun D =>
    forallb (fun P =>
      if (1 <=? D) && (D + P <=? 32)
      then f32_nearest (100 * D) (D + P) (consensusThreshOf D P)
           && f32_is_int (fullconsensusOf D P) (D + P)
      else true) shard_counts) shard_counts.

(** For [n] blobbers of which the lowest [k] hold the object, the trailing
    zeros of the repair mask count the blobbers that hold it. *)
Definition contiguous_shrink_check : bool :=
  forallb (fun n =>
    forallb (fun k =>
      if k <? n
      then (TrailingZeros32 (complement (fullMask n) (Z.ones k)) =? k)
           && (OnesCount32 (Z.ones k) =? k)
      else true) shard_counts) shard_counts.

(** ** Guards of the download builders, read off a run *)

Definition ticket_decodes (env : Env) (op : Op) : bool :=
  match op with
  | OpDownloadFromAuthTicket _ t _ _ _
  | OpDownloadThumbnailFromAuthTicket _ t _ _ _ =>
      match decodeAuthTicket env t with
      | Ok _ => true
      | Err _ => false
      end
  | _ => true
  end.

(** The local-path block let the run through: the path did not exist, or it
    was a directory and the file inside it did not exist. *)
Definition local_checks_pass (evs : list Event) : bool :=
  match evs with
  | EvStat _ (inr _) :: _ => true
  | EvStat _ (inl i) :: EvStat _ (inr _) :: _ => IsDir i
  | _ => false
  end.

(** ** Classes of operations *)

(** The operations guarded by [a.UnderRepair()]. *)
Definition is_mutating (op : Op) : bool :=
  match op with
  | OpListDir _ | OpListDirFromAuthTicket _ _
  | OpGetFileMeta _ | OpGetFileMetaFromAuthTicket _ _
  | OpGetFileStats _
  | OpGetAuthTicketForShare _ _ _ _ | OpGetAuthTicket _ _ _ _ _ => false
  | _ => true
  end.

Definition is_repair (op : Op) : bool :=
  match op with
  | OpRepairFile _ _ _ => true
  | _ => false
  end.

(** The allocation with its under-repair flag replaced. *)
Definition withRepair (value : bool) (a : Allocation.t) : Allocation.t :=
  Allocation.mk (Allocation.ID a) (Allocation.Tx a)
    (Allocation.DataShards a) (Allocation.ParityShards a)
    (Allocation.Blobbers a) (Allocation.initialized a) value.

Definition setRepair (value : bool) (s : State) : State :=
  {| alloc := withRepair value (alloc s);
     sdkInitialized := sdkInitialized s;
     numBlockDownloads := numBlockDownloads s;
     trace := trace s |}.

Definition demoUnderRepair : State := setRepair true demoReady.

(** ** Reading paths *)

Fixpoint has_slash (s : string) : bool :=
  match s with
  | EmptyString => false
  | String c r => is_slash c || has_slash r
  end.

Fixpoint ends_with_slash (s : string) : bool :=
  match s with
  | EmptyString => false
  | String c EmptyString => is_slash c
  | String _ r => ends_with_slash r
  end.

(** ** Arguments of the download operations *)

Definition is_ticket_download (op : Op) : bool :=
  match op with
  | OpDownloadFromAuthTicket _ _ _ _ _
  | OpDownloadThumbnailFromAuthTicket _ _ _ _ _ => true
  | _ => false
  end.

(** The key under which the enqueue closure registers the request. *)
Definition download_key (op : Op) : string :=
  match op with
  | OpDownloadFile _ remotePath _ | OpDownloadThumbnail _ remotePath _ => remotePath
  | OpDownloadFromAuthTicket _ _ remoteLookupHash _ _
  | OpDownloadThumbnailFromAuthTicket _ _ remoteLookupHash _ _ => remoteLookupHash
  | _ => ""
  end.

Definition download_mode (op : Op) : ContentMode :=
  match op with
  | OpDownloadThumbnail _ _ _
  | OpDownloadThumbnailFromAuthTicket _ _ _ _ _ => DOWNLOAD_CONTENT_THUMB
  | _ => DOWNLOAD_CONTENT_FULL
  end.

Definition download_local (op : Op) : string :=
  match op with
  | OpDownloadFile localPath _ _ | OpDownloadThumbnail localPath _ _
  | OpDownloadFromAuthTicket localPath _ _ _ _
  | OpDownloadThumbnailFromAuthTicket localPath _ _ _ _ => localPath
  | _ => ""
  end.

(** The remote name whose last element names the local file. *)
Definition download_remote_name (op : Op) : string :=
  match op with
  | OpDownloadFile _ remotePath _ | OpDownloadThumbnail _ remotePath _ => remotePath
  | OpDownloadFromAuthTicket _ _ _ remoteFilename _
  | OpDownloadThumbnailFromAuthTicket _ _ _ remoteFilename _ => remoteFilename
  | _ => ""
  end.

(** [fmt.Sprintf("%s/%s", strings.TrimRight(localPath, "/"), rFile)] *)
Definition download_target (op : Op) : string :=
  TrimRight_slash (download_local op) ++ "/"
  ++ snd (filepath_Split (download_remote_name op)).


(** ** Reading errors, paths and tickets off an operation *)

Definition error_code (e : error) : string :=
  match e with
  | CommonError code _ => code
  | ErrorsNew _ => ""
  end.

(** The remote path an operation validates before it builds a request. *)
Definition validated_path (op : Op) : option string :=
  match op with
  | OpListDir p | OpGetFileStats p | OpDeleteFile p
  | OpRenameObject p _ | OpCopyObject p _ | OpMoveObject p _
  | OpGetAuthTicketForShare p _ _ _ | OpGetAuthTicket p _ _ _ _ => Some p
  | _ => None
  end.

Definition ticket_of (op : Op) : option string :=
  match op with
  | OpDownloadFromAuthTicket _ t _ _ _
  | OpDownloadThumbnailFromAuthTicket _ t _ _ _
  | OpListDirFromAuthTicket t _
  | OpGetFileMetaFromAuthTicket t _ => Some t
  | _ => None
  end.

(** The commit-meta requests a run handed to a worker goroutine. *)
Definition startedCommits (evs : list Event) : list CommitMetaRequest.t :=
  flat_map (fun ev => match ev with
                      | EvGo (GoCommitMeta r) => [r]
                      | _ => []
                      end) evs.

(** ** Price ranges *)

Module PriceRange.
Record t : Type := mk { Min : Z; Max : Z }.
End PriceRange.

(** [func (pr *PriceRange) IsValid() bool] *)
Definition IsValid (pr : PriceRange.t) : bool :=
  (0 <=? PriceRange.Min pr) && (PriceRange.Min pr <=? PriceRange.Max pr).

(** ** In-flight requests: the progress maps

    The maps hold pointers to the request objects, and cancelling sets a
    flag on the object itself; a pointer is an index into the list of
    objects allocated so far, each paired with its cancel flag
    ([isUploadCanceled], [isDownloadCanceled]). *)

Definition ProgressMap : Type := string -> option nat.

Definition pm_empty : ProgressMap := fun _ => None.

(** [m[key] = p] *)
Definition pm_insert (key : string) (p : nat) (m : ProgressMap) : ProgressMap :=
  fun k => if String.eqb k key then Some p else m k.

(** [delete(m, key)] *)
Definition pm_delete (key : string) (m : ProgressMap) : ProgressMap :=
  fun k => if String.eqb k key then None else m k.

Record Progress : Type := {
  uploadObjects : list (UploadRequest.t * bool);
  downloadObjects : list (DownloadRequest.t * bool);
  uploadChan : list nat;
  downloadChan : list nat;
  uploadProgressMap : ProgressMap;
  downloadProgressMap : ProgressMap
}.

(** [make(chan *UploadRequest, 10)] and [make(chan *DownloadRequest, 10)] *)
Definition chanCapacity : nat := 10.

(** The maps and channels [InitAllocation] makes. *)
Definition freshProgress : Progress :=
  {| uploadObjects := []; downloadObjects := [];
     uploadChan := []; downloadChan := [];
     uploadProgressMap := pm_empty; downloadProgressMap := pm_empty |}.

(** Set the cancel flag of the object at [p]. *)
Fixpoint cancelAt {A : Type} (p : nat) (objs : list (A * bool)) : list (A * bool) :=
  match objs, p with
  | [], _ => []
  | (r, _) :: rest, O => (r, true) :: rest
  | o :: rest, S p' => o :: cancelAt p' rest
  end.

Definition errUploadNotFound (localpath : string) : error :=
  CommonError "local_path_not_found"
    ("Invalid path. Do upload in progress for the path " ++ localpath).

Definition errDownloadNotFound (remotepath : string) : error :=
  CommonError "remote_path_not_found"
    ("Invalid path. Do download in progress for the path " ++ remotepath).

Definition CancelUpload (localpath : string) (pr : Progress)
    : option error * Progress :=
  match uploadProgressMap pr localpath with
  | Some p =>
      (None,
       {| uploadObjects := cancelAt p (uploadObjects pr);
          downloadObjects := downloadObjects pr;
          uploadChan := uploadChan pr;
          downloadChan := downloadChan pr;
          uploadProgressMap := uploadProgressMap pr;
          downloadProgressMap := downloadProgressMap pr |})
  | None => (Some (errUploadNotFound localpath), pr)
  end.

Definition CancelDownload (remotepath : string) (pr : Progress)
    : option error * Progress :=
  match downloadProgressMap pr remotepath with
  | Some p =>
      (None,
       {| uploadObjects := uploadObjects pr;
          downloadObjects := cancelAt p (downloadObjects pr);
          uploadChan := uploadChan pr;
          downloadChan := downloadChan pr;
          uploadProgressMap := uploadProgressMap pr;
          downloadProgressMap := downloadProgressMap pr |})
  | None => (Some (errDownloadNotFound remotepath), pr)
  end.

(** The closure [go func() { a.uploadChan <- uploadReq; a.mutex.Lock(); ...;
    a.uploadProgressMap[localpath] = uploadReq }()], run to its end on the
    request object [uploadReq] built by the operation: the send needs room
    in the channel ([None] while it is blocked), the registration follows. *)
Definition enqueueUploadClosure (key : string) (uploadReq : UploadRequest.t)
    (pr : Progress) : option (nat * Progress) :=
  if (List.length (uploadChan pr) <? chanCapacity)%nat then
    let p := List.length (uploadObjects pr) in
    Some (p,
          {| uploadObjects := uploadObjects pr ++ [(uploadReq, false)];
             downloadObjects := downloadObjects pr;
             uploadChan := uploadChan pr ++ [p];
             downloadChan := downloadChan pr;
             uploadProgressMap := pm_insert key p (uploadProgressMap pr);
             downloadProgressMap := downloadProgressMap pr |})
  else None.

Definition enqueueDownloadClosure (key : string) (downloadReq : DownloadRequest.t)
    (pr : Progress) : option (nat * Progress) :=
  if (List.length (downloadChan pr) <? chanCapacity)%nat then
    let p := List.length (downloadObjects pr) in
    Some (p,
          {| uploadObjects := uploadObjects pr;
             downloadObjects := downloadObjects pr ++ [(downloadReq, false)];
             uploadChan := uploadChan pr;
             downloadChan := downloadChan pr ++ [p];
             uploadProgressMap := uploadProgressMap pr;
             downloadProgressMap := pm_insert key p (downloadProgressMap pr) |})
  else None.

(** [uploadReq.completedCallback]: [delete(a.uploadProgressMap, filepath)]. *)
Definition uploadCompleted (filepath : string) (pr : Progress) : Progress :=
  {| uploadObjects := uploadObjects pr;
     downloadObjects := downloadObjects pr;
     uploadChan := uploadChan pr;
     downloadChan := downloadChan pr;
     uploadProgressMap := pm_delete filepath (uploadProgressMap pr);
     downloadProgressMap := downloadProgressMap pr |}.

(** [downloadReq.completedCallback] of [downloadFile] deletes its first
    argument [remotepath]; the one of [downloadFromAuthTicket] deletes its
    second argument [remotepathHash]. *)
Definition downloadCompleted (ticket : bool) (remotepath remotepathHash : string)
    (pr : Progress) : Progress :=
  {| uploadObjects := uploadObjects pr;
     downloadObjects := downloadObjects pr;
     uploadChan := uploadChan pr;
     downloadChan := downloadChan pr;
     uploadProgressMap := uploadProgressMap pr;
     downloadProgressMap :=
       pm_delete (if ticket then remotepathHash else remotepath)
         (downloadProgressMap pr) |}.

Definition uploadCanceled (p : nat) (pr : Progress) : option bool :=
  option_map snd (nth_error (uploadObjects pr) p).

Definition downloadCanceled (p : nat) (pr : Progress) : option bool :=
  option_map snd (nth_error (downloadObjects pr) p).

(** ** Further demo runs *)

Definition demoThumbnailRun : option error * State :=
  uploadOrUpdateFile (demoEnv (15, Some demoRef, None)) "/home/u/a.txt"
    "/docs/a.txt" noStatus false "/home/u/missing.png" false false demoReady.

Definition demoThumbnailRequest : UploadRequest.t :=
  hd (UploadRequest.mk "" "" "" (UploadFileMeta.mk "" 0 "" 0) 0 0 false false ""
        noStatus 0 0 0 (f32_of_int 0) (f32_of_int 0) false)
     (enqueuedUploads (emitted demoReady (snd demoThumbnailRun))).

Definition demoRepairRun : option error * State :=
  RepairFile (demoEnv (5, Some demoRef, None)) "/home/u/a.txt" "/a.txt" noStatus
    demoReady.

Definition demoRepairRequest : UploadRequest.t :=
  hd (UploadRequest.mk "" "" "" (UploadFileMeta.mk "" 0 "" 0) 0 0 false false ""
        noStatus 0 0 0 (f32_of_int 0) (f32_of_int 0) false)
     (enqueuedUploads (emitted demoReady (snd demoRepairRun))).

Definition demoDownloadOp : Op := OpDownloadFile "/home/u/dl" "/docs/a.txt" noStatus.

Definition demoDownloadRun : option error * State :=
  exec (demoEnv (15, Some demoRef, None)) demoDownloadOp demoReady.


Definition demoShareRequest : ShareRequest.t :=
  {| ShareRequest.allocationID := "alloc";
     ShareRequest.blobbers := fourBlobbers;
     ShareRequest.remotefilepath := "/docs";
     ShareRequest.remotefilename := "docs";
     ShareRequest.refType := "d" |}.

Definition demoTicketListRequest : ListRequest.t :=
  {| ListRequest.allocationID := "alloc";
     ListRequest.allocationTx := "tx";
     ListRequest.blobbers := fourBlobbers;
     ListRequest.consensusThresh := consensusThreshOf 2 2;
     ListRequest.fullconsensus := fullconsensusOf 2 2;
     ListRequest.remotefilepath := "";
     ListRequest.remotefilepathhash := "lh";
     ListRequest.authToken := Some hashTicket |}.

Definition demoRegistered : nat * Progress :=
  match enqueueUploadClosure "/home/u/a.txt" demoThumbnailRequest freshProgress with
  | Some x => x
  | None => (O, freshProgress)
  end.

Definition demoRegisteredTwice : nat * Progress :=
  match enqueueUploadClosure "/home/u/a.txt" demoRepairRequest (snd demoRegistered) with
  | Some x => x
  | None => (O, freshProgress)
  end.

(** ** Guards read from the environment *)

(** The local-path block of a download lets the run through: the local
    path does not exist, or it is a directory and the file inside it does
    not exist yet. *)
Definition local_path_free (env : Env) (op : Op) (s : State) : bool :=
  match os_Stat env (trace s) (download_local op) with
  | inr _ => true
  | inl info =>
      IsDir info
      && match os_Stat env (trace s ++ [EvStat (download_local op) (inl info)])
                 (download_target op) with
         | inl _ => false
         | inr _ => true
         end
  end.

(** An operation that runs alike whatever the under-repair flag: same
    value returned, same calls recorded, the flag left as it was. *)
Definition ignores_repair {A : Type} (m : M A) : Prop :=
  forall (value : bool) (s : State),
    m (setRepair value s) = (fst (m s), setRepair value (snd (m s))).

(** A reference whose encrypted key is set, and the metadata a caller
    may supply to a commit. *)
Definition demoKeyedRef : FileRef.t :=
  {| FileRef.Type_ := "f"; FileRef.Name := "a.txt";
     FileRef.ActualFileHash := "h-actual"; FileRef.LookupHash := "h-lookup";
     FileRef.MimeType := "text/plain"; FileRef.Path := "/a.txt";
     FileRef.ActualFileSize := 10; FileRef.EncryptedKey := "k";
     FileRef.CommitMetaTxns := [] |}.

Definition demoMeta : ConsolidatedFileMeta.t :=
  {| ConsolidatedFileMeta.Name := "b.txt";
     ConsolidatedFileMeta.Type_ := "f";
     ConsolidatedFileMeta.Path := "/b.txt";
     ConsolidatedFileMeta.LookupHash := "h-b";
     ConsolidatedFileMeta.Hash := "h-b-actual";
     ConsolidatedFileMeta.MimeType := "text/plain";
     ConsolidatedFileMeta.Size := 7;
     ConsolidatedFileMeta.EncryptedKey := "";
     ConsolidatedFileMeta.CommitMetaTxns := [] |}.

Definition demoCommit (m : option ConsolidatedFileMeta.t) : Event :=
  EvGo (GoCommitMeta {| CommitMetaRequest.CrudType := "Update";
                        CommitMetaRequest.MetaData := m;
                        CommitMetaRequest.status := noStatus;
                        CommitMetaRequest.authToken := "" |}).

(** * Properties *)

Local Open Scope list_scope.

(** ** Masks *)

Lemma wrap32_testbit (x i : Z) :
  Z.testbit (wrap32 x) i = (i <? 32) && Z.testbit x i.
Proof.
  unfold wrap32.
  destruct (Z.ltb_spec i 32) as [Hlt | Hge]; cbn [andb].
  - destruct (Z.ltb_spec i 0) as [Hneg | Hpos].
    + rewrite !Z.testbit_neg_r by lia. reflexivity.
    + apply Z.mod_pow2_bits_low. lia.
  - apply Z.mod_pow2_bits_high. lia.
Qed.

Lemma uint32_testbit_high (x i : Z) :
  0 <= x < 2 ^ 32 -> 32 <= i -> Z.testbit x i = false.
Proof.
  intros Hx Hi.
  rewrite <- (Z.mod_small x (2 ^ 32)) by exact Hx.
  apply Z.mod_pow2_bits_high. lia.
Qed.

Lemma complement_testbit (full found i : Z) :
  0 <= i ->
  Z.testbit (complement full found) i
  = ((i <? 32) && negb (Z.testbit found i)) && Z.testbit full i.
Proof.
  intros Hi. unfold complement, not32.
  rewrite Z.land_spec, wrap32_testbit, Z.lnot_spec by exact Hi.
  reflexivity.
Qed.

Lemma complement_range (full found : Z) :
  0 <= complement full found < 2 ^ 32.
Proof.
  assert (H : complement full found = wrap32 (complement full found)).
  { apply Z.bits_inj'. intros i Hi.
    rewrite wrap32_testbit, complement_testbit by exact Hi.
    destruct (i <? 32); reflexivity. }
  rewrite H. unfold wrap32. apply Z.mod_pos_bound. lia.
Qed.

Lemma fullMask_ones (n : Z) : 0 <= n <= 32 -> fullMask n = Z.ones n.
Proof.
  intros Hn. unfold fullMask, wrap32.
  rewrite Z.ones_equiv, Z.shiftl_1_l.
  destruct (Z.eq_dec n 32) as [-> | Hne].
  - reflexivity.
  - rewrite (Z.mod_small n) by lia.
    assert (Hp : 0 < 2 ^ n < 2 ^ 32).
    { split; [apply Z.pow_pos_nonneg; lia | apply Z.pow_lt_mono_r; lia]. }
    rewrite (Z.mod_small (2 ^ n)) by lia.
    rewrite Z.mod_small by lia. lia.
Qed.

Lemma fullMask_range (n : Z) : 0 <= fullMask n < 2 ^ 32.
Proof. unfold fullMask, wrap32. apply Z.mod_pos_bound. lia. Qed.

(** C8: for a 32-bit full mask [F] and a found mask [M] inside it,
    complementing [M] within [F] twice gives [M] back, where the complement
    is [^M & F] as [uploadOrUpdateFile] computes the repair target. *)
Theorem complement_involutive (F M : Z) :
  0 <= F < 2 ^ 32 ->
  Z.land M F = M ->
  complement F (complement F M) = M.
Proof.
  intros HF Hsub.
  apply Z.bits_inj'. intros i Hi.
  rewrite !complement_testbit by exact Hi.
  assert (HM : Z.testbit M i = Z.testbit M i && Z.testbit F i).
  { rewrite <- Z.land_spec, Hsub. reflexivity. }
  destruct (Z.ltb_spec i 32) as [Hlt | Hge]; cbn [andb].
  - rewrite HM.
    destruct (Z.testbit M i), (Z.testbit F i); reflexivity.
  - rewrite HM, (uint32_testbit_high F i HF Hge).
    rewrite Bool.andb_false_r. reflexivity.
Qed.

Lemma complement_involutive_witness :
  0 <= 15 < 2 ^ 32 /\ Z.land 5 15 = 5 /\ complement 15 (complement 15 5) = 5.
Proof.
  refine (conj _ (conj _ (complement_involutive 15 5 _ _))).
  - lia.
  - reflexivity.
  - lia.
  - reflexivity.
Defined.

(** ** Traces *)

Lemma skipn_length_app {A : Type} (l l' : list A) :
  skipn (List.length l) (l ++ l') = l'.
Proof. induction l as [| x l IH]; simpl; [reflexivity | exact IH]. Qed.

Lemma emitted_eq (s s' : State) (l : list Event) :
  trace s' = trace s ++ l -> emitted s s' = l.
Proof. intros H. unfold emitted. rewrite H. apply skipn_length_app. Qed.

Lemma emitted_refl (s : State) : emitted s s = [].
Proof. apply emitted_eq. symmetry. apply app_nil_r. Qed.

(** Reduce the projections of record literals. *)
Ltac simpl_proj :=
  cbn [alloc sdkInitialized numBlockDownloads trace
       set_uploadMask set_fullconsensus
       UploadRequest.isRepair UploadRequest.uploadMask
       UploadRequest.fullconsensus UploadRequest.consensusThresh
       Allocation.ID Allocation.Tx Allocation.DataShards
       Allocation.ParityShards Allocation.Blobbers Allocation.initialized
       Allocation.underRepair] in *.

(** Unfold one operation down to the state-passing function it denotes. *)
Ltac run_go :=
  cbv beta iota zeta delta
    [bind ret call log self go_ errorOf isInitialized UnderRepair
     UpdateRepairStatus packageNumBlockDownloads Stat newConnectionId
     getFileConsensus getList getFileStats enqueueUpload commitMeta
     withLocalPath decodeAuthTicket] in *;
  simpl_proj.

(** Split on the scrutinee of the first [match] or [if] met. *)
Ltac split_match :=
  match goal with
  | H : context [match ?x with _ => _ end] |- _ =>
      lazymatch x with
      | context [match _ with _ => _ end] => fail
      | _ => destruct x eqn:?
      end
  | |- context [match ?x with _ => _ end] =>
      lazymatch x with
      | context [match _ with _ => _ end] => fail
      | _ => destruct x eqn:?
      end
  end.

(** Split on the scrutinee of the first [match] met in one hypothesis. *)
Ltac split_hyp H :=
  match type of H with
  | context [match ?x with _ => _ end] =>
      lazymatch x with
      | context [match _ with _ => _ end] => fail
      | _ => destruct x eqn:?
      end
  end.

(** Bring the recorded guard outcomes into a form [congruence] can use. *)
Ltac clean_guards :=
  repeat match goal with
    | H : negb _ = true |- _ => apply (proj1 (negb_true_iff _)) in H
    | H : negb _ = false |- _ => apply (proj1 (negb_false_iff _)) in H
    | H : _ || _ = false |- _ => apply orb_false_elim in H; destruct H
    | H : (_ =? _) = true |- _ => apply Z.eqb_eq in H
    end.

(** Turn the equation [(r, s) = (res, s')] of a finished run into its parts. *)
Ltac finish_run :=
  match goal with
  | H : (_, _) = (_, _) |- _ => inversion H; subst; clear H
  end.

Ltac normalize_emitted :=
  repeat match goal with
    | |- context [emitted ?s ?s] => rewrite (emitted_refl s)
    | H : context [emitted ?s ?s] |- _ => rewrite (emitted_refl s) in H
    | |- context [emitted ?s ?s'] =>
        erewrite (emitted_eq s s') by (simpl; rewrite <- ?app_assoc; reflexivity)
    | H : context [emitted ?s ?s'] |- _ =>
        erewrite (emitted_eq s s') in H by (simpl; rewrite <- ?app_assoc; reflexivity)
    end.

(** Find the event a membership hypothesis speaks of. *)
Ltac pick_event H :=
  simpl in H;
  repeat match type of H with
    | _ \/ _ => destruct H as [H | H]
    | False => destruct H
    end;
  try discriminate H.

(** ** File metadata *)

(** C9: whenever the consensus read of [GetFileMeta] answers with a
    file reference, [GetFileMeta] returns a [ConsolidatedFileMeta] that
    carries that reference's actual file hash, actual file size and mime
    type unchanged, and the read is the one call it records. *)
Theorem GetFileMeta_preserves_reference
    (env : Env) (path : string) (s : State)
    (found : Z) (ref : FileRef.t) (e : option error) :
  let q := newListRequest (alloc s) path "" None in
  getFileConsensusFromBlobbers env (trace s) q = (found, Some ref, e) ->
  exists m s',
    GetFileMeta env path s = (Ok m, s')
    /\ ConsolidatedFileMeta.Hash m = FileRef.ActualFileHash ref
    /\ ConsolidatedFileMeta.Size m = FileRef.ActualFileSize ref
    /\ ConsolidatedFileMeta.MimeType m = FileRef.MimeType ref
    /\ emitted s s' = [EvGetFileConsensus q (found, Some ref, e)].
Proof.
  intros q Hans.
  unfold GetFileMeta. run_go. fold q. rewrite Hans.
  do 2 eexists. split; [reflexivity |].
  normalize_emitted. repeat split; reflexivity.
Qed.

Lemma GetFileMeta_preserves_reference_witness :
  let env := demoEnv (5, Some demoRef, None) in
  getFileConsensusFromBlobbers env (trace demoReady)
    (newListRequest (alloc demoReady) "/a.txt" "" None)
  = (5, Some demoRef, None)
  /\ exists m s',
       GetFileMeta env "/a.txt" demoReady = (Ok m, s')
       /\ ConsolidatedFileMeta.Hash m = "h-actual"%string
       /\ ConsolidatedFileMeta.Size m = 10
       /\ ConsolidatedFileMeta.MimeType m = "text/plain"%string
       /\ emitted demoReady s'
          = [EvGetFileConsensus (newListRequest (alloc demoReady) "/a.txt" "" None)
               (5, Some demoRef, None)].
Proof.
  intros env.
  split; [reflexivity |].
  exact (GetFileMeta_preserves_reference env "/a.txt" demoReady 5 demoRef None
           eq_refl).
Defined.

(** ** Move *)

Lemma CopyObject_no_delete (env : Env) (path destPath : string) (s s' : State)
    (r : option error) :
  CopyObject env path destPath s = (r, s') ->
  existsb is_delete (emitted s s') = false /\ alloc s' = alloc s.
Proof.
  unfold CopyObject. run_go. intros Hrun.
  repeat split_match; finish_run; normalize_emitted; split; reflexivity.
Qed.

(** C10: [MoveObject] runs [CopyObject] first.  When the copy returns an
    error, [MoveObject] returns that error in the state the copy left, in
    which no delete request was issued; when the copy succeeds, the result
    of [MoveObject] is the result of [DeleteFile] on the source path. *)
Theorem MoveObject_copy_then_delete
    (env : Env) (path destPath : string) (s s1 : State) (r : option error) :
  CopyObject env path destPath s = (r, s1) ->
  match r with
  | Some e =>
      MoveObject env path destPath s = (Some e, s1)
      /\ existsb is_delete (emitted s s1) = false
  | None => MoveObject env path destPath s = DeleteFile env path s1
  end.
Proof.
  intros Hcopy.
  destruct (CopyObject_no_delete env path destPath s s1 r Hcopy) as [Hnd _].
  unfold MoveObject, bind. rewrite Hcopy.
  destruct r as [e |]; [split; [reflexivity | exact Hnd] | reflexivity].
Qed.

Lemma MoveObject_copy_then_delete_witness :
  let env := demoEnv (15, Some demoRef, None) in
  CopyObject env "/a.txt" "" demoReady
  = (Some (CommonError "invalid_path" "Invalid path for copy"), demoReady)
  /\ MoveObject env "/a.txt" "" demoReady
     = (Some (CommonError "invalid_path" "Invalid path for copy"), demoReady)
  /\ existsb is_delete (emitted demoReady demoReady) = false.
Proof.
  intros env.
  assert (Hcopy : CopyObject env "/a.txt" "" demoReady
                  = (Some (CommonError "invalid_path" "Invalid path for copy"),
                     demoReady))
    by reflexivity.
  split; [exact Hcopy |].
  exact (MoveObject_copy_then_delete env "/a.txt" "" demoReady demoReady _ Hcopy).
Defined.

(** ** Repair *)

(** C6: a repair upload that reaches the list-consensus phase
    (allocation initialized and not under repair, local file present,
    remote path absolute) and whose consensus read answers with an existing
    object returns the no-repair-required error exactly when the found mask
    equals the all-ones mask of the current blobber count; with any other
    found mask it returns [nil]. *)
Theorem RepairFile_no_repair_iff_full
    (env : Env) (localpath remotepath : string) (status : StatusCallback)
    (s : State) (fi : FileInfo)
    (found : Z) (ref : FileRef.t) (e : option error) :
  let tr1 := trace s ++ [EvStat localpath (inl fi)] in
  let tr2 := tr1 ++ [EvNewConnectionId (NewConnectionId env tr1)] in
  let q := newListRequest (alloc s)
             (GetFullRemotePath env localpath (RemoteClean env remotepath))
             "" None in
  let run := RepairFile env localpath remotepath status s in
  fst (isInitialized s) = true ->
  Allocation.underRepair (alloc s) = false ->
  os_Stat env (trace s) localpath = inl fi ->
  IsRemoteAbs env (RemoteClean env remotepath) = true ->
  getFileConsensusFromBlobbers env tr2 q = (found, Some ref, e) ->
  In (EvGetFileConsensus q (found, Some ref, e)) (emitted s (snd run))
  /\ (fst run = Some errNoRepairRequired
      <-> found = fullMask (blobberCount (alloc s)))
  /\ (found <> fullMask (blobberCount (alloc s)) -> fst run = None).
Proof.
  intros tr1 tr2 q run Hinit Hrep Hstat Habs Hans. subst run.
  cbn [isInitialized fst] in Hinit.
  unfold RepairFile, uploadOrUpdateFile. run_go.
  change (0 <? len "") with false. cbv iota.
  rewrite Hinit. cbn [negb]. cbv beta iota zeta. simpl_proj.
  rewrite Hrep. cbv beta iota zeta. simpl_proj.
  rewrite Hstat. cbv beta iota zeta. simpl_proj.
  rewrite Habs. cbn [negb]. cbv beta iota zeta. simpl_proj.
  fold tr1. fold tr2. fold q. rewrite Hans. cbv beta iota zeta. simpl_proj.
  cbn [UploadRequest.uploadMask].
  destruct (found =? fullMask (blobberCount (alloc s))) eqn:Hfull;
    cbv beta iota zeta; simpl_proj; cbn [fst snd]; subst tr1 tr2;
    normalize_emitted.
  - apply Z.eqb_eq in Hfull.
    split; [simpl; right; right; left; reflexivity |].
    split; [split; [intros _; exact Hfull | reflexivity] |].
    intros Hne. contradiction.
  - apply Z.eqb_neq in Hfull.
    split; [simpl; right; right; left; reflexivity |].
    split; [split; [discriminate | intros Heq; contradiction] |].
    reflexivity.
Qed.

Lemma RepairFile_no_repair_iff_full_witness :
  let full := demoEnv (15, Some demoRef, None) in
  let partial := demoEnv (5, Some demoRef, None) in
  let run env := RepairFile env "/home/u/a.txt" "/a.txt" noStatus demoReady in
  fullMask (blobberCount (alloc demoReady)) = 15
  /\ fst (run full) = Some errNoRepairRequired
  /\ fst (run partial) = None
  /\ In (EvGetFileConsensus demoListRequest (5, Some demoRef, None))
        (emitted demoReady (snd (run partial))).
Proof.
  intros full partial run.
  destruct (RepairFile_no_repair_iff_full full "/home/u/a.txt" "/a.txt" noStatus
              demoReady {| Size := 10; IsDir := false |} 15 demoRef None
              eq_refl eq_refl eq_refl eq_refl eq_refl)
    as (_ & Hfull & _).
  destruct (RepairFile_no_repair_iff_full partial "/home/u/a.txt" "/a.txt" noStatus
              demoReady {| Size := 10; IsDir := false |} 5 demoRef None
              eq_refl eq_refl eq_refl eq_refl eq_refl)
    as (Hin & _ & Hpartial).
  split; [reflexivity |].
  split; [apply (proj2 Hfull); reflexivity |].
  split; [apply Hpartial; discriminate | exact Hin].
Defined.

(** C7: a repair upload whose consensus read finds no object returns the
    not-found error, leaves the allocation (its under-repair flag included)
    as it was and starts no goroutine, so nothing is enqueued. *)
Theorem RepairFile_missing_object
    (env : Env) (localpath remotepath : string) (status : StatusCallback)
    (s s' : State) (r : option error)
    (q : ListRequest.t) (found : Z) (e : option error) :
  RepairFile env localpath remotepath status s = (r, s') ->
  In (EvGetFileConsensus q (found, None, e)) (emitted s s') ->
  r = Some errFileNotFound
  /\ Allocation.underRepair (alloc s') = Allocation.underRepair (alloc s)
  /\ alloc s' = alloc s
  /\ existsb is_go (emitted s s') = false.
Proof.
  unfold RepairFile, uploadOrUpdateFile. run_go.
  change (0 <? len "") with false. cbv iota.
  intros Hrun Hin.
  repeat split_match; finish_run; normalize_emitted; pick_event Hin;
    inversion Hin; subst; simpl_proj.
  repeat split; congruence.
Qed.

Lemma RepairFile_missing_object_witness :
  let env := demoEnv (0, None, None) in
  let run := RepairFile env "/home/u/a.txt" "/a.txt" noStatus demoReady in
  In (EvGetFileConsensus demoListRequest (0, None, None))
     (emitted demoReady (snd run))
  /\ fst run = Some errFileNotFound
  /\ Allocation.underRepair (alloc (snd run))
     = Allocation.underRepair (alloc demoReady)
  /\ alloc (snd run) = alloc demoReady
  /\ existsb is_go (emitted demoReady (snd run)) = false.
Proof.
  intros env run.
  assert (Hin : In (EvGetFileConsensus demoListRequest (0, None, None))
                   (emitted demoReady (snd run)))
    by (vm_compute; right; right; left; reflexivity).
  split; [exact Hin |].
  exact (RepairFile_missing_object env "/home/u/a.txt" "/a.txt" noStatus
           demoReady (snd run) (fst run) demoListRequest 0 None eq_refl Hin).
Defined.

(** What a repair that goes ahead hands to the upload queue: the mask is
    the complement of the found mask, the threshold is untouched, and the
    full consensus is lowered by the trailing zero bits of the new mask. *)
Lemma uploadOrUpdateFile_repair_narrows
    (env : Env) (localpath remotepath : string) (status : StatusCallback)
    (isUpdate : bool) (thumbnailpath : string) (encryption : bool)
    (s s' : State) (r : option error)
    (q : ListRequest.t) (found : Z) (ref : FileRef.t) (e : option error) :
  uploadOrUpdateFile env localpath remotepath status isUpdate thumbnailpath
    encryption true s = (r, s') ->
  In (EvGetFileConsensus q (found, Some ref, e)) (emitted s s') ->
  found <> fullMask (blobberCount (alloc s)) ->
  let full := fullMask (blobberCount (alloc s)) in
  r = None
  /\ Allocation.underRepair (alloc s') = true
  /\ exists req,
       enqueuedUploads (emitted s s') = [req]
       /\ UploadRequest.isRepair req = true
       /\ UploadRequest.uploadMask req = complement full found
       /\ UploadRequest.consensusThresh req
          = consensusThreshOf (Allocation.DataShards (alloc s))
              (Allocation.ParityShards (alloc s))
       /\ UploadRequest.fullconsensus req
          = f32_sub
              (fullconsensusOf (Allocation.DataShards (alloc s))
                 (Allocation.ParityShards (alloc s)))
              (f32_of_int (TrailingZeros32 (complement full found))).
Proof.
  unfold uploadOrUpdateFile. run_go.
  intros Hrun Hin Hne.
  repeat split_match; finish_run; normalize_emitted; pick_event Hin;
    inversion Hin; subst; simpl_proj;
    try (match goal with
         | H : (_ =? _) = true |- _ => apply Z.eqb_eq in H; contradiction
         end);
    (split; [reflexivity | split; [reflexivity |]]);
    eexists; (split; [reflexivity |]); repeat split; reflexivity.
Qed.

(** C1, at the scenario of the claim: on the 4-blobber allocation with
    found mask 0b0101 the repair is enqueued with upload mask 0b1010, and
    its full consensus is 3, the initial 4 lowered by the single trailing
    zero bit of the new mask; the two blobbers that hold the object would
    lower it to 2. *)
Theorem repair_found_0101_fullconsensus :
  let env := demoEnv (5, Some demoRef, None) in
  let run := RepairFile env "/home/u/a.txt" "/a.txt" noStatus demoReady in
  blobberCount (alloc demoReady) = 4
  /\ fst run = None
  /\ uploadTargets (emitted demoReady (snd run)) = [(10, f32_of_int 3)]
  /\ TrailingZeros32 10 = 1
  /\ OnesCount32 5 = 2
  /\ f32_of_int 3 <> f32_of_int 2.
Proof.
  intros env run.
  repeat split; try (vm_compute; reflexivity).
  vm_compute. discriminate.
Qed.

Lemma in_shard_counts (z : Z) : 0 <= z <= 32 -> In z shard_counts.
Proof.
  intros Hz. unfold shard_counts.
  rewrite <- (Z2Nat.id z) by lia.
  apply in_map, in_seq. lia.
Qed.

(** When the blobbers holding the object are the lowest [k] of [n], the
    amount taken off the full consensus is the number of those blobbers. *)
Lemma repair_shrink_contiguous (n k : Z) :
  0 <= k < n -> n <= 32 ->
  TrailingZeros32 (complement (fullMask n) (Z.ones k)) = OnesCount32 (Z.ones k).
Proof.
  intros Hk Hn.
  assert (Hall : contiguous_shrink_check = true) by (vm_compute; reflexivity).
  unfold contiguous_shrink_check in Hall.
  rewrite forallb_forall in Hall.
  specialize (Hall n (in_shard_counts n ltac:(lia))).
  rewrite forallb_forall in Hall.
  specialize (Hall k (in_shard_counts k ltac:(lia))).
  replace (k <? n) with true in Hall by (symmetry; apply Z.ltb_lt; lia).
  apply andb_true_iff in Hall. destruct Hall as [Htz Hones].
  apply Z.eqb_eq in Htz. apply Z.eqb_eq in Hones. congruence.
Qed.

(** ** Initialization guard *)

Ltac unfold_ops :=
  unfold MoveObject, CommitMetaTransaction, GetAuthTicketForShare,
    UpdateFile, UploadFile, RepairFile, UpdateFileWithThumbnail,
    UploadFileWithThumbnail, EncryptAndUpdateFile, EncryptAndUploadFile,
    EncryptAndUpdateFileWithThumbnail, EncryptAndUploadFileWithThumbnail,
    DownloadFile, DownloadThumbnail,
    DownloadFromAuthTicket, DownloadThumbnailFromAuthTicket in *;
  unfold uploadOrUpdateFile, downloadFile, downloadFromAuthTicket,
    ListDir, ListDirFromAuthTicket, GetFileStats,
    GetFileMeta, GetFileMetaFromAuthTicket,
    DeleteFile, RenameObject, CopyObject, GetAuthTicket in *.

(** C5, at the failing input: on an allocation that is not initialized
    [GetFileMeta] does not return the not-initialized error; it sends the
    consensus read to the blobbers and returns the metadata. *)
Theorem GetFileMeta_skips_initialized_check :
  let env := demoEnv (15, Some demoRef, None) in
  let run := exec env (OpGetFileMeta "/a.txt") demoUninitialized in
  fst (isInitialized demoUninitialized) = false
  /\ fst run = None
  /\ emitted demoUninitialized (snd run)
     = [EvGetFileConsensus demoListRequest (15, Some demoRef, None)].
Proof. intros env run. repeat split; vm_compute; reflexivity. Qed.

(** Every operation other than the two file-meta ones returns the
    not-initialized error from an uninitialized allocation and leaves the
    state, trace included, as it was. *)
Lemma exec_not_initialized (env : Env) (op : Op) (s : State) :
  is_file_meta op = false ->
  fst (isInitialized s) = false ->
  exec env op s = (Some notInitialized, s).
Proof.
  intros Hop Hinit. cbn [isInitialized fst] in Hinit.
  destruct op; try discriminate Hop; cbn [exec];
    unfold_ops; run_go; rewrite Hinit; reflexivity.
Qed.

(** ** Auth tickets *)

Lemma ListDirFromAuthTicket_rejects_empty_hash
    (env : Env) (authTicket lookupHash : string) (s : State) (at_ : AuthTicket) :
  decodeAuthTicket env authTicket = Ok at_ ->
  FilePathHash at_ = ""%string ->
  exists e, ListDirFromAuthTicket env authTicket lookupHash s = (Err e, s).
Proof.
  intros Hdec Hhash. unfold ListDirFromAuthTicket.
  rewrite Hdec, Hhash. run_go.
  destruct (negb (Allocation.initialized (alloc s) && sdkInitialized s));
    eexists; reflexivity.
Qed.

Lemma GetFileMetaFromAuthTicket_rejects_empty_hash
    (env : Env) (authTicket lookupHash : string) (s : State) (at_ : AuthTicket) :
  decodeAuthTicket env authTicket = Ok at_ ->
  FilePathHash at_ = ""%string ->
  GetFileMetaFromAuthTicket env authTicket lookupHash s = (Err errInvalidList, s).
Proof.
  intros Hdec Hhash. unfold GetFileMetaFromAuthTicket.
  rewrite Hdec, Hhash. reflexivity.
Qed.

(** C3, at the failing input: a ticket that decodes to an empty
    [file_path_hash] is accepted by [DownloadFromAuthTicket]: the call
    returns no error and enqueues a download request carrying that ticket. *)
Theorem DownloadFromAuthTicket_accepts_empty_hash :
  let env := demoEnv (15, Some demoRef, None) in
  let run :=
    DownloadFromAuthTicket env "/home/u/dl" "e30=" "lh" "a.txt" noStatus demoReady in
  decodeAuthTicket env "e30=" = Ok emptyTicket
  /\ FilePathHash emptyTicket = ""%string
  /\ fst run = None
  /\ map DownloadRequest.authTicket (enqueuedDownloads (emitted demoReady (snd run)))
     = [Some emptyTicket].
Proof. intros env run. repeat split; vm_compute; reflexivity. Qed.

(** ** Blobber count *)

Ltac not_noBLOBBERS :=
  match goal with
  | H : Some _ = Some noBLOBBERS |- _ =>
      unfold noBLOBBERS, notInitialized, underRepair in H; simpl in H;
      discriminate H
  end.

(** C4, amended: on an allocation with at most one blobber each of the
    four download operations returns an error, emits only local file-system
    events (no blobber is contacted, no goroutine started) and leaves the
    allocation unchanged.  The error is that of the first guard that fails:
    the not-initialized error; else the under-repair error; else the decode
    error of the auth ticket; else, when the local path exists, the
    not-a-directory error or, when the file inside it exists, the
    already-exists error; and the no-blobbers error when all of these
    guards pass, and only then. *)
Theorem download_without_blobbers
    (env : Env) (op : Op) (s s' : State) (r : option error) :
  is_download op = true ->
  blobberCount (alloc s) <= 1 ->
  exec env op s = (r, s') ->
  (exists e, r = Some e)
  /\ forallb is_local (emitted s s') = true
  /\ alloc s' = alloc s
  /\ (r = Some noBLOBBERS
      <-> fst (isInitialized s) = true
          /\ Allocation.underRepair (alloc s) = false
          /\ ticket_decodes env op = true
          /\ local_checks_pass (emitted s s') = true)
  /\ (fst (isInitialized s) = false -> r = Some notInitialized)
  /\ (fst (isInitialized s) = true ->
      Allocation.underRepair (alloc s) = true -> r = Some underRepair)
  /\ (fst (isInitialized s) = true ->
      Allocation.underRepair (alloc s) = false ->
      forall t e0,
        ticket_of op = Some t -> decodeAuthTicket env t = Err e0 -> r = Some e0)
  /\ (fst (isInitialized s) = true ->
      Allocation.underRepair (alloc s) = false ->
      ticket_decodes env op = true ->
      r = Some
            match os_Stat env (trace s) (download_local op) with
            | inr _ => noBLOBBERS
            | inl info =>
                if negb (IsDir info)
                then ErrorsNew ("Local path is not a directory '"
                                ++ download_local op ++ "'")
                else
                  match os_Stat env
                          (trace s ++ [EvStat (download_local op) (inl info)])
                          (download_target op) with
                  | inl _ => ErrorsNew ("Local file already exists '"
                                        ++ download_target op ++ "'")
                  | inr _ => noBLOBBERS
                  end
            end).
Proof.
  intros Hop Hcount Hrun.
  apply Z.leb_le in Hcount.
  destruct op; try discriminate Hop;
    cbn [exec ticket_decodes ticket_of download_local] in *;
    unfold download_target; cbn [download_local download_remote_name];
    unfold_ops; run_go;
    repeat (split_hyp Hrun; simpl_proj); try congruence;
    finish_run; normalize_emitted; simpl_proj;
    cbn [isInitialized fst local_checks_pass];
    (split; [eexists; reflexivity |]);
    (split; [reflexivity |]);
    (split; [reflexivity |]);
    (split;
     [split; [intros Hres; try not_noBLOBBERS | intros (Hi & Hu & Ht & Hl)] |]);
    cbn [local_checks_pass app negb] in *;
    clean_guards;
    try (first [congruence | repeat split; congruence]).
  all: repeat split; intros; try congruence;
    try (match goal with H : Some _ = Some ?t |- _ => injection H as <- end;
         repeat match goal with
           | Heq : ?x = _, H2 : context [match ?x with _ => _ end] |- _ =>
               rewrite Heq in H2
           end;
         first [congruence
               | match goal with
                 | H2 : Err _ = Err _ |- _ => injection H2 as <-; reflexivity
                 end]).
Qed.

Lemma download_without_blobbers_witness :
  let env := demoEnv (15, Some demoRef, None) in
  let op := OpDownloadFromAuthTicket "/home/u/dl" "e30=" "lh" "a.txt" noStatus in
  let bad := OpDownloadFromAuthTicket "/home/u/dl" "not-base64" "lh" "a.txt" noStatus in
  let e0 :=
    CommonError "auth_ticket_decode_error"
      "Error decoding the auth ticket.illegal base64 data" in
  is_download op = true
  /\ blobberCount (alloc oneBlobberReady) <= 1
  /\ fst (exec env op oneBlobberReady) = Some noBLOBBERS
  /\ decodeAuthTicket env "not-base64" = Err e0
  /\ fst (exec env bad oneBlobberReady) = Some e0
  /\ fst (exec env op oneBlobberUninitialized) = Some notInitialized.
Proof.
  intros env op bad e0.
  assert (Hcount : blobberCount (alloc oneBlobberReady) <= 1)
    by (vm_compute; discriminate).
  assert (Hcount' : blobberCount (alloc oneBlobberUninitialized) <= 1)
    by (vm_compute; discriminate).
  split; [reflexivity |]. split; [exact Hcount |].
  split.
  { destruct (download_without_blobbers env op oneBlobberReady
                (snd (exec env op oneBlobberReady))
                (fst (exec env op oneBlobberReady)) eq_refl Hcount eq_refl)
      as (_ & _ & _ & _ & _ & _ & _ & Hlocal).
    exact (Hlocal eq_refl eq_refl eq_refl). }
  split; [reflexivity |].
  split.
  { destruct (download_without_blobbers env bad oneBlobberReady
                (snd (exec env bad oneBlobberReady))
                (fst (exec env bad oneBlobberReady)) eq_refl Hcount eq_refl)
      as (_ & _ & _ & _ & _ & _ & Hticket & _).
    exact (Hticket eq_refl eq_refl "not-base64"%string e0 eq_refl eq_refl). }
  destruct (download_without_blobbers env op oneBlobberUninitialized
              (snd (exec env op oneBlobberUninitialized))
              (fst (exec env op oneBlobberUninitialized)) eq_refl Hcount' eq_refl)
    as (_ & _ & _ & _ & Hinit & _).
  exact (Hinit eq_refl).
Defined.

(** C4, as stated, fails twice: with one blobber [ListDir] returns a
    listing after asking the blobbers, and [DownloadFile] on an allocation
    that is not initialized returns the not-initialized error instead. *)
Lemma list_and_download_counterexample :
  let env := demoEnv (15, Some demoRef, None) in
  let listing := exec env (OpListDir "/") oneBlobberReady in
  let download :=
    exec env (OpDownloadFile "/home/u/dl" "/a.txt" noStatus) oneBlobberUninitialized in
  blobberCount (alloc oneBlobberReady) = 1
  /\ fst listing = None
  /\ forallb is_local (emitted oneBlobberReady (snd listing)) = false
  /\ blobberCount (alloc oneBlobberUninitialized) = 1
  /\ fst download = Some notInitialized
  /\ fst download <> Some noBLOBBERS.
Proof.
  intros env listing download.
  repeat split; try (vm_compute; reflexivity).
  vm_compute. discriminate.
Qed.

(** ** The consensus pair of every request *)

Lemma consensus_values (D P : Z) :
  1 <= D -> 0 <= P -> D + P <= 32 ->
  f32_nearest (100 * D) (D + P) (consensusThreshOf D P) = true
  /\ f32_is_int (fullconsensusOf D P) (D + P) = true.
Proof.
  intros HD HP HDP.
  assert (Hall : consensus_values_check = true) by (vm_compute; reflexivity).
  unfold consensus_values_check in Hall.
  rewrite forallb_forall in Hall.
  specialize (Hall D (in_shard_counts D ltac:(lia))).
  rewrite forallb_forall in Hall.
  specialize (Hall P (in_shard_counts P ltac:(lia))).
  replace (1 <=? D) with true in Hall by (symmetry; apply Z.leb_le; lia).
  replace (D + P <=? 32) with true in Hall by (symmetry; apply Z.leb_le; lia).
  cbn [andb] in Hall. apply andb_true_iff in Hall. exact Hall.
Qed.

(** C2, amended: every request an operation builds carries the float32
    threshold [(float32(D) * 100) / float32(D + P)], and every request other
    than the upload request of a repair carries the full consensus
    [float32(D + P)]; for [D >= 1], [P >= 0] and at most 32 shards the
    threshold is the binary32 number nearest to [100 * D / (D + P)] and
    the full consensus is exactly [D + P]. *)
Theorem request_consensus_pair
    (env : Env) (op : Op) (s s' : State) (r : option error)
    (ev : Event) (c f : float32) :
  exec env op s = (r, s') ->
  In ev (emitted s s') ->
  event_consensus ev = Some (c, f) ->
  let D := Allocation.DataShards (alloc s) in
  let P := Allocation.ParityShards (alloc s) in
  c = consensusThreshOf D P
  /\ (is_repair_upload ev = false -> f = fullconsensusOf D P)
  /\ (1 <= D -> 0 <= P -> D + P <= 32 ->
      f32_nearest (100 * D) (D + P) c = true
      /\ (is_repair_upload ev = false -> f32_is_int f (D + P) = true)).
Proof.
  intros Hrun Hin Hev D P.
  assert (Hpair : c = consensusThreshOf D P
                  /\ (is_repair_upload ev = false -> f = fullconsensusOf D P)).
  { subst D P.
    destruct op; cbn [exec] in Hrun; unfold_ops; run_go;
      repeat (split_match; simpl_proj); try congruence;
      finish_run; normalize_emitted; pick_event Hin; subst ev;
      cbn [event_consensus is_repair_upload newListRequest newDownloadRequest
           ListRequest.consensusThresh ListRequest.fullconsensus
           DownloadRequest.consensusThresh DownloadRequest.fullconsensus
           DeleteRequest.consensusThresh DeleteRequest.fullconsensus
           RenameRequest.consensusThresh RenameRequest.fullconsensus
           CopyRequest.consensusThresh CopyRequest.fullconsensus
           UploadRequest.consensusThresh UploadRequest.fullconsensus
           UploadRequest.isRepair] in *;
      try discriminate Hev;
      inversion Hev; subst;
      (split; [reflexivity | intros Hrep; first [reflexivity | discriminate Hrep]]). }
  destruct Hpair as [Hc Hf].
  split; [exact Hc |]. split; [exact Hf |].
  intros HD HP HDP.
  destruct (consensus_values D P HD HP HDP) as [Hn Hi].
  split; [rewrite Hc; exact Hn |].
  intros Hrep. rewrite (Hf Hrep). exact Hi.
Qed.

Lemma request_consensus_pair_witness :
  let env := demoEnv (15, Some demoRef, None) in
  let run := exec env (OpDeleteFile "/a.txt") demoReady in
  let ev := EvProcessDelete demoDeleteRequest None in
  In ev (emitted demoReady (snd run))
  /\ event_consensus ev = Some (consensusThreshOf 2 2, fullconsensusOf 2 2)
  /\ f32_nearest 200 4 (consensusThreshOf 2 2) = true
  /\ f32_is_int (fullconsensusOf 2 2) 4 = true.
Proof.
  intros env run ev.
  assert (Hin : In ev (emitted demoReady (snd run)))
    by (vm_compute; right; left; reflexivity).
  assert (Hev : event_consensus ev = Some (consensusThreshOf 2 2, fullconsensusOf 2 2))
    by reflexivity.
  split; [exact Hin |]. split; [exact Hev |].
  destruct (request_consensus_pair env (OpDeleteFile "/a.txt") demoReady (snd run)
              (fst run) ev _ _ eq_refl Hin Hev) as (_ & _ & Hnum).
  destruct Hnum as [Hn Hi]; try (vm_compute; discriminate).
  split; [exact Hn | exact (Hi eq_refl)].
Defined.

(** C2, as stated, fails for a repair: with [D = 2], [P = 2] and found mask
    0b0101 the enqueued upload request carries full consensus 3, not
    [D + P = 4]. *)
Lemma repair_fullconsensus_counterexample :
  let env := demoEnv (5, Some demoRef, None) in
  let run := exec env (OpRepairFile "/home/u/a.txt" "/a.txt" noStatus) demoReady in
  Allocation.DataShards (alloc demoReady) = 2
  /\ Allocation.ParityShards (alloc demoReady) = 2
  /\ map snd (uploadTargets (emitted demoReady (snd run))) = [f32_of_int 3]
  /\ f32_of_int 3 <> fullconsensusOf 2 2.
Proof.
  intros env run.
  repeat split; try (vm_compute; reflexivity).
  vm_compute. discriminate.
Qed.

(** * Further properties *)

Lemma under_repair_rejects (env : Env) (op : Op) (s : State) :
  is_mutating op = true ->
  fst (isInitialized s) = true ->
  Allocation.underRepair (alloc s) = true ->
  exec env op s = (Some underRepair, s).
Proof.
  intros Hop Hinit Hrep. cbn [isInitialized fst] in Hinit.
  destruct op; try discriminate Hop; cbn [exec];
    unfold_ops; run_go; rewrite Hinit; cbv beta iota delta [negb];
    simpl_proj; rewrite Hrep; reflexivity.
Qed.

(** X1: every upload, download, delete, rename, copy, move and
    commit-meta operation on an initialized allocation that is under repair
    returns the under-repair error and leaves the state, trace included,
    untouched. *)
Theorem mutating_rejected_under_repair (env : Env) (op : Op) (s : State) :
  is_mutating op = true ->
  fst (isInitialized s) = true ->
  Allocation.underRepair (alloc s) = true ->
  exec env op s = (Some underRepair, s).
Proof. exact (under_repair_rejects env op s). Qed.

Lemma mutating_rejected_under_repair_witness :
  let env := demoEnv (15, Some demoRef, None) in
  let op := OpDeleteFile "/a.txt" in
  is_mutating op = true
  /\ fst (isInitialized demoUnderRepair) = true
  /\ Allocation.underRepair (alloc demoUnderRepair) = true
  /\ exec env op demoUnderRepair = (Some underRepair, demoUnderRepair).
Proof.
  intros env op.
  refine (conj eq_refl (conj eq_refl (conj eq_refl _))).
  exact (mutating_rejected_under_repair env op demoUnderRepair eq_refl eq_refl eq_refl).
Defined.

Ltac solve_ignores_repair :=
  intros value s; unfold_ops;
  unfold setRepair, withRepair, newListRequest; run_go;
  repeat (split_match; simpl_proj); reflexivity.

(** X2: listing, file metadata, file statistics and sharing do not
    look at the under-repair flag: run with the flag set to either value
    they return the same value, listing, metadata, statistics, ticket or
    error, and record the same calls. *)
Theorem reads_ignore_repair (env : Env) :
  (forall path, ignores_repair (ListDir env path))
  /\ (forall authTicket lookupHash,
        ignores_repair (ListDirFromAuthTicket env authTicket lookupHash))
  /\ (forall path, ignores_repair (GetFileMeta env path))
  /\ (forall authTicket lookupHash,
        ignores_repair (GetFileMetaFromAuthTicket env authTicket lookupHash))
  /\ (forall path, ignores_repair (GetFileStats env path))
  /\ (forall path filename referenceType refereeClientID refereeEncryptionPublicKey,
        ignores_repair
          (GetAuthTicket env path filename referenceType refereeClientID
             refereeEncryptionPublicKey))
  /\ (forall path filename referenceType refereeClientID,
        ignores_repair
          (GetAuthTicketForShare env path filename referenceType refereeClientID)).
Proof.
  repeat match goal with |- _ /\ _ => split end; intros; solve_ignores_repair.
Qed.

Lemma repair_success_state
    (env : Env) (localpath remotepath : string) (status : StatusCallback)
    (s s' : State) :
  RepairFile env localpath remotepath status s = (None, s') ->
  fst (isInitialized s) = true
  /\ Allocation.underRepair (alloc s) = false
  /\ alloc s' = withRepair true (alloc s)
  /\ sdkInitialized s' = sdkInitialized s.
Proof.
  unfold RepairFile, uploadOrUpdateFile, withRepair. run_go.
  change (0 <? len "") with false. cbv iota.
  intros Hrun.
  repeat (split_match; simpl_proj); try discriminate Hrun;
    finish_run; simpl_proj;
    repeat match goal with
      | H : negb _ = false |- _ => apply (proj1 (negb_false_iff _)) in H
      end;
    repeat split; assumption || reflexivity.
Qed.

(** X3: once [RepairFile] has returned [nil], every mutating operation
    is rejected with the under-repair error, and [UpdateRepairStatus(false)]
    gives back the allocation as it was before the repair. *)
Theorem repair_blocks_mutations
    (env : Env) (localpath remotepath : string) (status : StatusCallback)
    (s s' : State) (op : Op) :
  RepairFile env localpath remotepath status s = (None, s') ->
  is_mutating op = true ->
  exec env op s' = (Some underRepair, s')
  /\ alloc (snd (UpdateRepairStatus false s')) = alloc s.
Proof.
  intros Hrun Hop.
  destruct (repair_success_state env localpath remotepath status s s' Hrun)
    as (Hinit & Hrep & Halloc & Hsdk).
  split.
  - apply under_repair_rejects; [exact Hop | |].
    + cbn [isInitialized fst] in *. rewrite Halloc, Hsdk. exact Hinit.
    + rewrite Halloc. reflexivity.
  - cbn [UpdateRepairStatus snd alloc]. rewrite Halloc. cbn.
    rewrite <- Hrep. destruct (alloc s). reflexivity.
Qed.

Lemma repair_blocks_mutations_witness :
  let env := demoEnv (5, Some demoRef, None) in
  let run := RepairFile env "/home/u/a.txt" "/a.txt" noStatus demoReady in
  let op := OpUploadFile "/home/u/a.txt" "/b.txt" noStatus in
  fst run = None
  /\ is_mutating op = true
  /\ exec env op (snd run) = (Some underRepair, snd run)
  /\ alloc (snd (UpdateRepairStatus false (snd run))) = alloc demoReady.
Proof.
  intros env run op.
  refine (conj eq_refl (conj eq_refl _)).
  exact (repair_blocks_mutations env "/home/u/a.txt" "/a.txt" noStatus demoReady
           (snd run) op eq_refl eq_refl).
Defined.

(** X4: no operation changes the package flags, and none changes the
    allocation except a repair that returns [nil], which only sets the
    under-repair flag. *)
Theorem allocation_changes_only_by_repair
    (env : Env) (op : Op) (s s' : State) (r : option error) :
  exec env op s = (r, s') ->
  sdkInitialized s' = sdkInitialized s
  /\ numBlockDownloads s' = numBlockDownloads s
  /\ (alloc s' = alloc s
      \/ (is_repair op = true /\ r = None /\ alloc s' = withRepair true (alloc s))).
Proof.
  intros Hrun.
  destruct op; cbn [exec is_repair] in *; unfold_ops; unfold withRepair; run_go;
    repeat (split_match; simpl_proj); try congruence;
    finish_run; simpl_proj;
    (split; [reflexivity |]); (split; [reflexivity |]);
    first [left; reflexivity | right; repeat split; reflexivity].
Qed.

Lemma allocation_changes_only_by_repair_witness :
  let env := demoEnv (5, Some demoRef, None) in
  let op := OpRepairFile "/home/u/a.txt" "/a.txt" noStatus in
  let run := exec env op demoReady in
  sdkInitialized (snd run) = sdkInitialized demoReady
  /\ numBlockDownloads (snd run) = numBlockDownloads demoReady
  /\ (alloc (snd run) = alloc demoReady
      \/ (is_repair op = true /\ fst run = None
          /\ alloc (snd run) = withRepair true (alloc demoReady))).
Proof.
  intros env op run.
  exact (allocation_changes_only_by_repair env op demoReady (snd run) (fst run)
           eq_refl).
Defined.

(** ** Paths *)

Lemma filepath_Split_app (s : string) :
  (fst (filepath_Split s) ++ snd (filepath_Split s))%string = s.
Proof.
  induction s as [| c r IH]; [reflexivity |].
  cbn [filepath_Split]. destruct (filepath_Split r) as [d f] eqn:Hsplit.
  cbn [fst snd] in IH. destruct d as [| c' d'].
  - cbn [String.append] in IH. subst r.
    destruct (is_slash c); reflexivity.
  - cbn [fst snd String.append] in *. rewrite IH. reflexivity.
Qed.

Lemma filepath_Split_name (s : string) :
  has_slash (snd (filepath_Split s)) = false.
Proof.
  induction s as [| c r IH]; [reflexivity |].
  cbn [filepath_Split]. destruct (filepath_Split r) as [d f] eqn:Hsplit.
  cbn [fst snd] in IH. destruct d as [| c' d'].
  - destruct (is_slash c) eqn:Hc; cbn [snd has_slash]; [exact IH |].
    rewrite Hc, IH. reflexivity.
  - exact IH.
Qed.

Lemma filepath_Split_dir (s : string) :
  fst (filepath_Split s) = EmptyString
  \/ ends_with_slash (fst (filepath_Split s)) = true.
Proof.
  induction s as [| c r IH]; [left; reflexivity |].
  cbn [filepath_Split]. destruct (filepath_Split r) as [d f] eqn:Hsplit.
  cbn [fst snd] in IH. destruct d as [| c' d'].
  - destruct (is_slash c) eqn:Hc; cbn [fst]; [right | left; reflexivity].
    cbn [ends_with_slash]. exact Hc.
  - right. cbn [fst]. destruct IH as [IH | IH]; [discriminate IH |].
    exact IH.
Qed.


(** ** Uploads *)

Ltac simpl_events :=
  cbn [app nth_error enqueuedUploads enqueuedDownloads flat_map existsb forallb
       is_local is_go is_delete] in *.

Lemma upload_outcome
    (env : Env) (localpath remotepath : string) (status : StatusCallback)
    (isUpdate : bool) (thumbnailpath : string) (encryption isRepair : bool)
    (s s' : State) (r : option error) :
  uploadOrUpdateFile env localpath remotepath status isUpdate thumbnailpath
    encryption isRepair s = (r, s') ->
  match r with
  | Some _ => existsb is_go (emitted s s') = false
  | None =>
      exists req fi,
        enqueuedUploads (emitted s s') = [req]
        /\ In (EvGo (GoEnqueueUpload localpath req)) (emitted s s')
        /\ nth_error (emitted s s') 0 = Some (EvStat localpath (inl fi))
        /\ UploadRequest.filepath req = localpath
        /\ UploadRequest.remotefilepath req
           = GetFullRemotePath env localpath (RemoteClean env remotepath)
        /\ UploadFileMeta.Path (UploadRequest.filemeta req)
           = UploadRequest.remotefilepath req
        /\ UploadFileMeta.Size (UploadRequest.filemeta req) = Size fi
        /\ UploadRequest.remaining req = Size fi
        /\ UploadRequest.thumbRemaining req
           = UploadFileMeta.ThumbnailSize (UploadRequest.filemeta req)
        /\ UploadRequest.isUpdate req = isUpdate
        /\ UploadRequest.isEncrypted req = encryption
        /\ UploadRequest.isRepair req = isRepair
        /\ UploadRequest.datashards req = Allocation.DataShards (alloc s)
        /\ UploadRequest.parityshards req = Allocation.ParityShards (alloc s)
  end.
Proof.
  unfold uploadOrUpdateFile. run_go. intros Hrun.
  repeat (split_match; simpl_proj); finish_run; normalize_emitted; simpl_events;
    try reflexivity;
    eexists; eexists; repeat split; try reflexivity;
    cbn [In]; tauto.
Qed.

(** X5: an upload returns [nil] exactly when it has started the one
    enqueue closure; the request then carries the local path, the full
    remote path as its metadata path, the size [os.Stat] reported as both
    size and remaining bytes, the shard counts and the three flags of the
    variant called.  On an error no goroutine is started. *)
Theorem upload_enqueues_iff_nil
    (env : Env) (localpath remotepath : string) (status : StatusCallback)
    (isUpdate : bool) (thumbnailpath : string) (encryption isRepair : bool)
    (s s' : State) (r : option error) :
  uploadOrUpdateFile env localpath remotepath status isUpdate thumbnailpath
    encryption isRepair s = (r, s') ->
  match r with
  | Some _ => existsb is_go (emitted s s') = false
  | None =>
      exists req fi,
        enqueuedUploads (emitted s s') = [req]
        /\ In (EvGo (GoEnqueueUpload localpath req)) (emitted s s')
        /\ nth_error (emitted s s') 0 = Some (EvStat localpath (inl fi))
        /\ UploadRequest.filepath req = localpath
        /\ UploadRequest.remotefilepath req
           = GetFullRemotePath env localpath (RemoteClean env remotepath)
        /\ UploadFileMeta.Path (UploadRequest.filemeta req)
           = UploadRequest.remotefilepath req
        /\ UploadFileMeta.Size (UploadRequest.filemeta req) = Size fi
        /\ UploadRequest.remaining req = Size fi
        /\ UploadRequest.thumbRemaining req
           = UploadFileMeta.ThumbnailSize (UploadRequest.filemeta req)
        /\ UploadRequest.isUpdate req = isUpdate
        /\ UploadRequest.isEncrypted req = encryption
        /\ UploadRequest.isRepair req = isRepair
        /\ UploadRequest.datashards req = Allocation.DataShards (alloc s)
        /\ UploadRequest.parityshards req = Allocation.ParityShards (alloc s)
  end.
Proof.
  exact (upload_outcome env localpath remotepath status isUpdate thumbnailpath
           encryption isRepair s s' r).
Qed.

Lemma upload_enqueues_iff_nil_witness :
  let env := demoEnv (15, Some demoRef, None) in
  let run :=
    uploadOrUpdateFile env "/home/u/a.txt" "/docs/a.txt" noStatus false "" true
      false demoReady in
  fst run = None
  /\ exists req fi,
       enqueuedUploads (emitted demoReady (snd run)) = [req]
       /\ In (EvGo (GoEnqueueUpload "/home/u/a.txt" req)) (emitted demoReady (snd run))
       /\ nth_error (emitted demoReady (snd run)) 0
          = Some (EvStat "/home/u/a.txt" (inl fi))
       /\ UploadRequest.filepath req = "/home/u/a.txt"%string
       /\ UploadRequest.remotefilepath req = "/docs/a.txt"%string
       /\ UploadFileMeta.Path (UploadRequest.filemeta req)
          = UploadRequest.remotefilepath req
       /\ UploadFileMeta.Size (UploadRequest.filemeta req) = Size fi
       /\ UploadRequest.remaining req = Size fi
       /\ UploadRequest.thumbRemaining req
          = UploadFileMeta.ThumbnailSize (UploadRequest.filemeta req)
       /\ UploadRequest.isUpdate req = false
       /\ UploadRequest.isEncrypted req = true
       /\ UploadRequest.isRepair req = false
       /\ UploadRequest.datashards req = 2
       /\ UploadRequest.parityshards req = 2.
Proof.
  intros env run. split; [reflexivity |].
  exact (upload_enqueues_iff_nil env "/home/u/a.txt" "/docs/a.txt" noStatus false
           "" true false demoReady (snd run) None eq_refl).
Defined.

(** X6: an upload that passes its guards returns [nil] and enqueues
    one request whatever the thumbnail: a thumbnail that cannot be stat-ed
    does not fail it, the request goes out with an empty thumbnail path and
    size zero; a thumbnail that exists contributes its path and size; with
    no thumbnail path given no second stat is made. *)
Theorem upload_thumbnail_handling
    (env : Env) (localpath remotepath : string) (status : StatusCallback)
    (isUpdate : bool) (thumbnailpath : string) (encryption : bool)
    (s : State) (fi : FileInfo) :
  let tr1 := trace s ++ [EvStat localpath (inl fi)] in
  let run :=
    uploadOrUpdateFile env localpath remotepath status isUpdate thumbnailpath
      encryption false s in
  fst (isInitialized s) = true ->
  Allocation.underRepair (alloc s) = false ->
  os_Stat env (trace s) localpath = inl fi ->
  IsRemoteAbs env (RemoteClean env remotepath) = true ->
  fst run = None
  /\ exists req,
       enqueuedUploads (emitted s (snd run)) = [req]
       /\ if 0 <? len thumbnailpath
          then
            match os_Stat env tr1 thumbnailpath with
            | inl fi' =>
                nth_error (emitted s (snd run)) 1
                = Some (EvStat thumbnailpath (inl fi'))
                /\ UploadRequest.thumbnailpath req = thumbnailpath
                /\ UploadFileMeta.ThumbnailSize (UploadRequest.filemeta req) = Size fi'
                /\ UploadRequest.thumbRemaining req = Size fi'
            | inr msg =>
                nth_error (emitted s (snd run)) 1
                = Some (EvStat thumbnailpath (inr msg))
                /\ UploadRequest.thumbnailpath req = ""%string
                /\ UploadFileMeta.ThumbnailSize (UploadRequest.filemeta req) = 0
                /\ UploadRequest.thumbRemaining req = 0
            end
          else
            nth_error (emitted s (snd run)) 1
            = Some (EvNewConnectionId (NewConnectionId env tr1))
            /\ UploadRequest.thumbnailpath req = ""%string
            /\ UploadFileMeta.ThumbnailSize (UploadRequest.filemeta req) = 0
            /\ UploadRequest.thumbRemaining req = 0.
Proof.
  intros tr1 run Hinit Hrep Hstat Habs. subst run tr1.
  cbn [isInitialized fst] in Hinit.
  unfold uploadOrUpdateFile. run_go.
  rewrite Hinit. cbn [negb]. cbv beta iota zeta. simpl_proj.
  rewrite Hrep. cbv beta iota zeta. simpl_proj.
  rewrite Hstat. cbv beta iota zeta. simpl_proj.
  destruct (0 <? len thumbnailpath) eqn:Hlen; cbv beta iota zeta; simpl_proj.
  - destruct (os_Stat env (trace s ++ [EvStat localpath (inl fi)]) thumbnailpath)
      as [fi' | msg] eqn:Hthumb;
      cbv beta iota zeta; simpl_proj;
      rewrite Habs; cbn [negb]; cbv beta iota zeta; simpl_proj;
      cbn [fst snd]; normalize_emitted; simpl_events;
      (split; [reflexivity |]); eexists; (split; [reflexivity |]);
      repeat split; reflexivity.
  - rewrite Habs. cbn [negb]. cbv beta iota zeta. simpl_proj.
    cbn [fst snd]. normalize_emitted. simpl_events.
    split; [reflexivity |]. eexists. split; [reflexivity |].
    cbn [UploadRequest.thumbnailpath UploadRequest.filemeta
         UploadFileMeta.ThumbnailSize UploadRequest.thumbRemaining].
    destruct thumbnailpath; [| cbn in Hlen; discriminate Hlen].
    repeat split; reflexivity.
Qed.

Lemma upload_thumbnail_handling_witness :
  let env := demoEnv (15, Some demoRef, None) in
  os_Stat env [EvStat "/home/u/a.txt" (inl {| Size := 10; IsDir := false |})]
    "/home/u/missing.png"
  = inr "no such file or directory"%string
  /\ fst demoThumbnailRun = None
  /\ enqueuedUploads (emitted demoReady (snd demoThumbnailRun))
     = [demoThumbnailRequest]
  /\ UploadRequest.thumbnailpath demoThumbnailRequest = ""%string
  /\ UploadFileMeta.ThumbnailSize (UploadRequest.filemeta demoThumbnailRequest) = 0.
Proof.
  intros env. split; [reflexivity |].
  destruct (upload_thumbnail_handling env "/home/u/a.txt" "/docs/a.txt" noStatus
              false "/home/u/missing.png" false demoReady
              {| Size := 10; IsDir := false |} eq_refl eq_refl eq_refl eq_refl)
    as (Hnil & req & Hreq & Hthumb).
  split; [exact Hnil |].
  assert (Heq : req = demoThumbnailRequest).
  { unfold demoThumbnailRequest, demoThumbnailRun.
    fold env. rewrite Hreq. reflexivity. }
  subst req.
  split; [exact Hreq |].
  cbv beta iota zeta in Hthumb.
  change (0 <? len "/home/u/missing.png") with true in Hthumb.
  cbv iota in Hthumb.
  destruct Hthumb as (_ & Hpath & Hsize & _).
  split; [exact Hpath | exact Hsize].
Defined.

(** X7: the file name of an enqueued upload is the last element of
    its remote path: it contains no separator and the path is a directory
    part, empty or ending in a separator, followed by the name. *)
Theorem upload_name_is_last_element
    (env : Env) (localpath remotepath : string) (status : StatusCallback)
    (isUpdate : bool) (thumbnailpath : string) (encryption isRepair : bool)
    (s s' : State) (req : UploadRequest.t) :
  uploadOrUpdateFile env localpath remotepath status isUpdate thumbnailpath
    encryption isRepair s = (None, s') ->
  In req (enqueuedUploads (emitted s s')) ->
  let meta := UploadRequest.filemeta req in
  has_slash (UploadFileMeta.Name meta) = false
  /\ exists dir,
       UploadFileMeta.Path meta = (dir ++ UploadFileMeta.Name meta)%string
       /\ (dir = ""%string \/ ends_with_slash dir = true).
Proof.
  unfold uploadOrUpdateFile. run_go. intros Hrun Hin.
  repeat (split_match; simpl_proj); try discriminate Hrun;
    finish_run; normalize_emitted; simpl_events;
    destruct Hin as [Hin | []]; subst req;
    cbn [UploadRequest.filemeta UploadFileMeta.Name UploadFileMeta.Path];
    (split; [apply filepath_Split_name |]);
    eexists; (split; [symmetry; apply filepath_Split_app | apply filepath_Split_dir]).
Qed.

Lemma upload_name_is_last_element_witness :
  let meta := UploadRequest.filemeta demoThumbnailRequest in
  has_slash (UploadFileMeta.Name meta) = false
  /\ exists dir,
       UploadFileMeta.Path meta = (dir ++ UploadFileMeta.Name meta)%string
       /\ (dir = ""%string \/ ends_with_slash dir = true).
Proof.
  assert (Hin : In demoThumbnailRequest
                   (enqueuedUploads (emitted demoReady (snd demoThumbnailRun))))
    by (vm_compute; left; reflexivity).
  exact (upload_name_is_last_element (demoEnv (15, Some demoRef, None))
           "/home/u/a.txt" "/docs/a.txt" noStatus false "/home/u/missing.png"
           false false demoReady (snd demoThumbnailRun) demoThumbnailRequest
           eq_refl Hin).
Defined.

(** ** Downloads *)

Ltac unfold_download_args :=
  cbn [download_key download_mode download_local download_remote_name
       is_ticket_download] in *;
  unfold download_target in *;
  cbn [download_local download_remote_name] in *.

Lemma download_outcome
    (env : Env) (op : Op) (s s' : State) (r : option error) :
  is_download op = true ->
  exec env op s = (r, s') ->
  match r with
  | Some _ => existsb is_go (emitted s s') = false
  | None =>
      2 <= blobberCount (alloc s)
      /\ exists req,
           enqueuedDownloads (emitted s s') = [req]
           /\ In (EvGo (GoEnqueueDownload (download_key op) req)) (emitted s s')
           /\ DownloadRequest.downloadMask req = fullMask (blobberCount (alloc s))
           /\ DownloadRequest.blobbers req = Allocation.Blobbers (alloc s)
           /\ DownloadRequest.numBlocks req = numBlockDownloads s
           /\ DownloadRequest.contentMode req = download_mode op
           /\ (if is_ticket_download op
               then DownloadRequest.remotefilepath req = ""%string
                    /\ DownloadRequest.remotefilepathhash req = download_key op
                    /\ exists at_, DownloadRequest.authTicket req = Some at_
               else DownloadRequest.remotefilepath req = download_key op
                    /\ DownloadRequest.remotefilepathhash req = ""%string
                    /\ DownloadRequest.authTicket req = None)
  end.
Proof.
  intros Hop Hrun.
  destruct op; try discriminate Hop; cbn [exec] in Hrun; unfold_download_args;
    unfold_ops; run_go;
    repeat (split_hyp Hrun; simpl_proj); finish_run; normalize_emitted;
    simpl_events; try reflexivity;
    (split; [match goal with
             | H : (_ <=? 1) = false |- _ => apply Z.leb_gt in H; lia
             end |]);
    eexists; cbn [newDownloadRequest DownloadRequest.downloadMask
                  DownloadRequest.blobbers DownloadRequest.numBlocks
                  DownloadRequest.contentMode DownloadRequest.remotefilepath
                  DownloadRequest.remotefilepathhash DownloadRequest.authTicket];
    repeat split; try reflexivity; try (cbn [In]; tauto);
    eexists; reflexivity.
Qed.

(** X9: a download returns [nil] exactly when all its guards pass,
    the allocation initialized and not under repair, the ticket decoding,
    the local path free, at least two blobbers, and then it has started the
    one enqueue closure; the request selects all blobbers, carries the
    package block count and the content mode of the variant, and is keyed
    by the remote path, or by the lookup hash with the decoded ticket
    attached when a ticket is used.  A download that returns an error has
    started nothing. *)
Theorem download_enqueues_iff_nil
    (env : Env) (op : Op) (s s' : State) (r : option error) :
  is_download op = true ->
  exec env op s = (r, s') ->
  (r = None
   <-> fst (isInitialized s) = true
       /\ Allocation.underRepair (alloc s) = false
       /\ ticket_decodes env op = true
       /\ local_path_free env op s = true
       /\ 2 <= blobberCount (alloc s))
  /\ match r with
     | Some _ => existsb is_go (emitted s s') = false
     | None =>
         2 <= blobberCount (alloc s)
         /\ exists req,
              enqueuedDownloads (emitted s s') = [req]
              /\ In (EvGo (GoEnqueueDownload (download_key op) req)) (emitted s s')
              /\ DownloadRequest.downloadMask req = fullMask (blobberCount (alloc s))
              /\ DownloadRequest.blobbers req = Allocation.Blobbers (alloc s)
              /\ DownloadRequest.numBlocks req = numBlockDownloads s
              /\ DownloadRequest.contentMode req = download_mode op
              /\ (if is_ticket_download op
                  then DownloadRequest.remotefilepath req = ""%string
                       /\ DownloadRequest.remotefilepathhash req = download_key op
                       /\ exists at_,
                            option_map (decodeAuthTicket env) (ticket_of op)
                            = Some (Ok at_)
                            /\ DownloadRequest.authTicket req = Some at_
                  else DownloadRequest.remotefilepath req = download_key op
                       /\ DownloadRequest.remotefilepathhash req = ""%string
                       /\ DownloadRequest.authTicket req = None)
     end.
Proof.
  intros Hop Hrun.
  destruct op; try discriminate Hop;
    cbn [exec ticket_decodes ticket_of option_map] in *;
    unfold local_path_free; unfold_download_args;
    unfold_ops; run_go;
    repeat (split_hyp Hrun; simpl_proj); finish_run; normalize_emitted;
    simpl_events; cbn [isInitialized fst andb] in *; clean_guards;
    repeat match goal with
      | H : (_ <=? 1) = false |- _ => apply Z.leb_gt in H
      | H : (_ <=? 1) = true |- _ => apply Z.leb_le in H
      end.
  all: split;
    [split; [intros Hnil; try discriminate Hnil; repeat split; try congruence; try lia
            | intros (Hi & Hu & Ht & Hl & Hb); try reflexivity;
              try match goal with
                | Hd : IsDir ?f = _ |- _ => rewrite Hd in Hl; cbn [andb] in Hl
                end;
              try congruence; try lia]
    | try reflexivity].
  all: try (split; [lia |]);
    try (eexists; cbn [newDownloadRequest DownloadRequest.downloadMask
                  DownloadRequest.blobbers DownloadRequest.numBlocks
                  DownloadRequest.contentMode DownloadRequest.remotefilepath
                  DownloadRequest.remotefilepathhash DownloadRequest.authTicket];
    repeat split; try reflexivity; try (cbn [In]; tauto);
    eexists; split; reflexivity).
  all: match goal with Hd : IsDir _ = true |- _ => rewrite Hd; reflexivity end.
Qed.

Lemma download_enqueues_iff_nil_witness :
  let env := demoEnv (15, Some demoRef, None) in
  let op := OpDownloadFromAuthTicket "/home/u/dl" "e30=" "lh" "a.txt" noStatus in
  let run := exec env op demoReady in
  is_download op = true
  /\ decodeAuthTicket env "e30=" = Ok emptyTicket
  /\ fst run = None
  /\ exists req,
       enqueuedDownloads (emitted demoReady (snd run)) = [req]
       /\ In (EvGo (GoEnqueueDownload "lh" req)) (emitted demoReady (snd run))
       /\ DownloadRequest.downloadMask req = 15
       /\ DownloadRequest.blobbers req = fourBlobbers
       /\ DownloadRequest.numBlocks req = 10
       /\ DownloadRequest.contentMode req = DOWNLOAD_CONTENT_FULL
       /\ DownloadRequest.remotefilepath req = ""%string
       /\ DownloadRequest.remotefilepathhash req = "lh"%string
       /\ DownloadRequest.authTicket req = Some emptyTicket.
Proof.
  intros env op run.
  split; [reflexivity |]. split; [reflexivity |].
  destruct (download_enqueues_iff_nil env op demoReady (snd run) (fst run)
              eq_refl eq_refl) as (Hnil & Hout).
  assert (Hres : fst run = None).
  { apply (proj2 Hnil). repeat split; vm_compute; congruence. }
  split; [exact Hres |].
  change (fst run) with (@None error) in Hout.
  destruct Hout as (_ & req & H1 & H2 & H3 & H4 & H5 & H6 & H7 & H8 & at_ & H9 & H10).
  exists req. repeat split; try assumption.
  rewrite H10. injection H9 as <-. reflexivity.
Defined.







(** ** Masks, continued *)

Lemma fullMask_saturates (n : Z) : 32 <= n < 2 ^ 32 -> fullMask n = Z.ones 32.
Proof.
  intros Hn. unfold fullMask, wrap32.
  rewrite (Z.mod_small n) by lia.
  rewrite Z.shiftl_1_l.
  replace n with (32 + (n - 32)) by lia.
  rewrite Z.pow_add_r by lia.
  rewrite Z.mul_comm, Z.mod_mul by lia.
  reflexivity.
Qed.

Lemma fullMask_testbit_aux (n i : Z) :
  0 <= n < 2 ^ 32 -> 0 <= i ->
  Z.testbit (fullMask n) i = (i <? Z.min n 32).
Proof.
  intros Hn Hi.
  destruct (Z.le_gt_cases n 32) as [Hle | Hgt].
  - rewrite fullMask_ones by lia.
    rewrite Z.testbit_ones_nonneg by lia.
    rewrite Z.min_l by lia. reflexivity.
  - rewrite fullMask_saturates by lia.
    rewrite Z.testbit_ones_nonneg by lia.
    rewrite Z.min_r by lia. reflexivity.
Qed.

(** X13: the all-ones mask of [n] blobbers has bit [i] set exactly for
    [i < min n 32]: beyond 32 blobbers the 32-bit mask saturates. *)
Theorem fullMask_selects_first_blobbers (n i : Z) :
  0 <= n < 2 ^ 32 -> 0 <= i ->
  Z.testbit (fullMask n) i = (i <? Z.min n 32).
Proof. exact (fullMask_testbit_aux n i). Qed.

Lemma fullMask_selects_first_blobbers_witness :
  0 <= 40 < 2 ^ 32 /\ 0 <= 31
  /\ Z.testbit (fullMask 40) 31 = (31 <? Z.min 40 32).
Proof.
  refine (conj _ (conj _ (fullMask_selects_first_blobbers 40 31 _ _))); lia.
Defined.

Lemma tz_pos_nonneg (p : positive) : 0 <= tz_pos p.
Proof. induction p; cbn [tz_pos]; lia. Qed.

Lemma tz_pos_bit (p : positive) : Z.testbit (Z.pos p) (tz_pos p) = true.
Proof.
  induction p as [q IH | q IH |]; cbn [tz_pos]; try reflexivity.
  change (Z.pos q~0) with (2 * Z.pos q).
  replace (1 + tz_pos q) with (Z.succ (tz_pos q)) by lia.
  rewrite Z.double_bits_succ. exact IH.
Qed.

Lemma tz_pos_below (p : positive) (i : Z) :
  0 <= i < tz_pos p -> Z.testbit (Z.pos p) i = false.
Proof.
  revert i. induction p as [q IH | q IH |]; cbn [tz_pos]; intros i Hi; try lia.
  change (Z.pos q~0) with (2 * Z.pos q).
  destruct (Z.eq_dec i 0) as [-> | Hne].
  - apply Z.testbit_even_0.
  - replace i with (Z.succ (i - 1)) by lia.
    rewrite Z.double_bits_succ. apply IH. lia.
Qed.

Lemma TrailingZeros32_lowest (x : Z) :
  0 < x < 2 ^ 32 ->
  let k := TrailingZeros32 x in
  0 <= k < 32
  /\ Z.testbit x k = true
  /\ forall i, 0 <= i < k -> Z.testbit x i = false.
Proof.
  intros Hx k. subst k. unfold TrailingZeros32, wrap32.
  rewrite Z.mod_small by lia.
  destruct x as [| p | p]; try lia.
  assert (Hbit := tz_pos_bit p).
  split; [| split; [exact Hbit | apply tz_pos_below]].
  split; [apply tz_pos_nonneg |].
  destruct (Z.lt_ge_cases (tz_pos p) 32) as [Hlt | Hge]; [exact Hlt |].
  rewrite (uint32_testbit_high (Z.pos p) (tz_pos p)) in Hbit by lia.
  discriminate Hbit.
Qed.

Lemma complement_disjoint (full found : Z) :
  Z.land (complement full found) found = 0.
Proof.
  apply Z.bits_inj'. intros i Hi.
  rewrite Z.land_spec, complement_testbit, Z.bits_0 by exact Hi.
  destruct (i <? 32), (Z.testbit found i), (Z.testbit full i); reflexivity.
Qed.

Lemma complement_subset (full found : Z) :
  Z.land (complement full found) full = complement full found.
Proof.
  apply Z.bits_inj'. intros i Hi.
  rewrite Z.land_spec, complement_testbit by exact Hi.
  destruct (i <? 32), (Z.testbit found i), (Z.testbit full i); reflexivity.
Qed.

Lemma complement_covers (full found : Z) :
  0 <= full < 2 ^ 32 ->
  Z.land found full = found ->
  Z.lor (complement full found) found = full.
Proof.
  intros Hfull Hsub.
  apply Z.bits_inj'. intros i Hi.
  rewrite Z.lor_spec, complement_testbit by exact Hi.
  assert (HM : Z.testbit found i = Z.testbit found i && Z.testbit full i).
  { rewrite <- Z.land_spec, Hsub. reflexivity. }
  destruct (Z.ltb_spec i 32) as [Hlt | Hge]; cbn [andb].
  - rewrite HM. destruct (Z.testbit found i), (Z.testbit full i); reflexivity.
  - rewrite HM, (uint32_testbit_high full i Hfull Hge).
    rewrite Bool.andb_false_r. reflexivity.
Qed.

Lemma complement_nonzero (full found : Z) :
  0 <= full < 2 ^ 32 ->
  Z.land found full = found ->
  found <> full ->
  0 < complement full found < 2 ^ 32.
Proof.
  intros Hfull Hsub Hne.
  assert (Hrange := complement_range full found).
  destruct (Z.eq_dec (complement full found) 0) as [Hz | Hnz]; [| lia].
  exfalso. apply Hne.
  rewrite <- (complement_covers full found Hfull Hsub), Hz.
  reflexivity.
Qed.

(** ** Repair, continued *)

Lemma f32_sub_zero (x : float32) : f32_sub x (f32_of_int 0) = x.
Proof. destruct x as [[] | [] | | [] m e]; reflexivity. Qed.

(** Everything a repair that returned [nil] has done. *)
Lemma repair_success_shape
    (env : Env) (localpath remotepath : string) (status : StatusCallback)
    (s s' : State) (q : ListRequest.t) (found : Z) (ref : FileRef.t)
    (e : option error) (req : UploadRequest.t) :
  RepairFile env localpath remotepath status s = (None, s') ->
  In (EvGetFileConsensus q (found, Some ref, e)) (emitted s s') ->
  In req (enqueuedUploads (emitted s s')) ->
  let full := fullMask (blobberCount (alloc s)) in
  found <> full
  /\ UploadRequest.uploadMask req = complement full found
  /\ UploadRequest.fullconsensus req
     = f32_sub
         (fullconsensusOf (Allocation.DataShards (alloc s))
            (Allocation.ParityShards (alloc s)))
         (f32_of_int (TrailingZeros32 (complement full found))).
Proof.
  unfold RepairFile, uploadOrUpdateFile. run_go.
  change (0 <? len "") with false. cbv iota.
  intros Hrun Hin Hreq.
  repeat (split_hyp Hrun; simpl_proj); try discriminate Hrun;
    finish_run; normalize_emitted; simpl_events;
    destruct Hreq as [Hreq | []]; subst req;
    pick_event Hin; inversion Hin; subst; simpl_proj.
  repeat split; try reflexivity.
  match goal with
  | H : (_ =? _) = false |- _ => apply Z.eqb_neq in H; exact H
  end.
Qed.

(** X14: the upload mask of an enqueued repair contains no blobber of
    the found mask and only blobbers of the allocation; when the found mask
    lies within the allocation, the two masks together are all blobbers and
    the upload mask is not empty. *)
Theorem repair_targets_missing_blobbers
    (env : Env) (localpath remotepath : string) (status : StatusCallback)
    (s s' : State) (q : ListRequest.t) (found : Z) (ref : FileRef.t)
    (e : option error) (req : UploadRequest.t) :
  RepairFile env localpath remotepath status s = (None, s') ->
  In (EvGetFileConsensus q (found, Some ref, e)) (emitted s s') ->
  In req (enqueuedUploads (emitted s s')) ->
  let full := fullMask (blobberCount (alloc s)) in
  let mask := UploadRequest.uploadMask req in
  Z.land mask found = 0
  /\ Z.land mask full = mask
  /\ (Z.land found full = found -> Z.lor mask found = full /\ mask <> 0).
Proof.
  intros Hrun Hin Hreq full mask.
  destruct (repair_success_shape env localpath remotepath status s s' q found ref
              e req Hrun Hin Hreq) as (Hne & Hmask & _).
  fold full in Hne, Hmask. subst mask. rewrite Hmask.
  split; [apply complement_disjoint |].
  split; [apply complement_subset |].
  intros Hsub.
  assert (Hfull : 0 <= full < 2 ^ 32) by apply fullMask_range.
  split; [apply complement_covers; assumption |].
  assert (H := complement_nonzero full found Hfull Hsub Hne). lia.
Qed.

Lemma repair_targets_missing_blobbers_witness :
  let full := fullMask (blobberCount (alloc demoReady)) in
  let mask := UploadRequest.uploadMask demoRepairRequest in
  fst demoRepairRun = None
  /\ Z.land mask 5 = 0
  /\ Z.land mask full = mask
  /\ (Z.land 5 full = 5 -> Z.lor mask 5 = full /\ mask <> 0).
Proof.
  intros full mask. split; [reflexivity |].
  refine (repair_targets_missing_blobbers (demoEnv (5, Some demoRef, None))
            "/home/u/a.txt" "/a.txt" noStatus demoReady (snd demoRepairRun)
            demoListRequest 5 demoRef None demoRepairRequest eq_refl _ _).
  - vm_compute. right. right. left. reflexivity.
  - vm_compute. left. reflexivity.
Defined.

(** X15: the full consensus of an enqueued repair is [D + P] lowered by
    the index of the lowest-numbered blobber missing from the found mask;
    when the first blobber is missing it stays [D + P]. *)
Theorem repair_fullconsensus_lowest_missing
    (env : Env) (localpath remotepath : string) (status : StatusCallback)
    (s s' : State) (q : ListRequest.t) (found : Z) (ref : FileRef.t)
    (e : option error) (req : UploadRequest.t) :
  RepairFile env localpath remotepath status s = (None, s') ->
  In (EvGetFileConsensus q (found, Some ref, e)) (emitted s s') ->
  In req (enqueuedUploads (emitted s s')) ->
  blobberCount (alloc s) < 2 ^ 32 ->
  Z.land found (fullMask (blobberCount (alloc s))) = found ->
  let D := Allocation.DataShards (alloc s) in
  let P := Allocation.ParityShards (alloc s) in
  exists k,
    UploadRequest.fullconsensus req = f32_sub (fullconsensusOf D P) (f32_of_int k)
    /\ 0 <= k < Z.min (blobberCount (alloc s)) 32
    /\ Z.testbit found k = false
    /\ (forall i, 0 <= i < k -> Z.testbit found i = true)
    /\ (Z.testbit found 0 = false ->
        UploadRequest.fullconsensus req = fullconsensusOf D P).
Proof.
  intros Hrun Hin Hreq Hcount Hsub D P.
  destruct (repair_success_shape env localpath remotepath status s s' q found ref
              e req Hrun Hin Hreq) as (Hne & _ & Hfc).
  set (n := blobberCount (alloc s)) in *.
  set (full := fullMask n) in *.
  assert (Hn : 0 <= n < 2 ^ 32)
    by (split; [unfold n, blobberCount; lia | exact Hcount]).
  assert (Hfull : 0 <= full < 2 ^ 32) by apply fullMask_range.
  assert (Hc := complement_nonzero full found Hfull Hsub Hne).
  destruct (TrailingZeros32_lowest (complement full found) Hc)
    as (Hk & Hbit & Hbelow).
  set (k := TrailingZeros32 (complement full found)) in *.
  rewrite complement_testbit in Hbit by lia.
  apply andb_true_iff in Hbit. destruct Hbit as [Hbit Hfullk].
  apply andb_true_iff in Hbit. destruct Hbit as [_ Hfoundk].
  apply negb_true_iff in Hfoundk.
  unfold full in Hfullk. rewrite fullMask_testbit_aux in Hfullk by lia.
  apply Z.ltb_lt in Hfullk.
  assert (Hlow : forall i, 0 <= i < k -> Z.testbit found i = true).
  { intros i Hi. specialize (Hbelow i Hi).
    rewrite complement_testbit in Hbelow by lia.
    assert (Hfi : Z.testbit full i = true).
    { unfold full. rewrite fullMask_testbit_aux by lia. apply Z.ltb_lt. lia. }
    rewrite Hfi in Hbelow.
    replace (i <? 32) with true in Hbelow by (symmetry; apply Z.ltb_lt; lia).
    destruct (Z.testbit found i); [reflexivity | discriminate Hbelow]. }
  exists k. split; [exact Hfc |]. split; [lia |].
  split; [exact Hfoundk |]. split; [exact Hlow |].
  intros H0.
  destruct (Z.eq_dec k 0) as [Hk0 | Hk0].
  - rewrite Hfc. fold k. rewrite Hk0. apply f32_sub_zero.
  - rewrite (Hlow 0) in H0 by lia. discriminate H0.
Qed.

Lemma repair_fullconsensus_lowest_missing_witness :
  fst demoRepairRun = None
  /\ Z.land 5 (fullMask (blobberCount (alloc demoReady))) = 5
  /\ exists k,
       UploadRequest.fullconsensus demoRepairRequest
       = f32_sub (fullconsensusOf 2 2) (f32_of_int k)
       /\ 0 <= k < Z.min (blobberCount (alloc demoReady)) 32
       /\ Z.testbit 5 k = false
       /\ (forall i, 0 <= i < k -> Z.testbit 5 i = true)
       /\ (Z.testbit 5 0 = false ->
           UploadRequest.fullconsensus demoRepairRequest = fullconsensusOf 2 2).
Proof.
  refine (conj eq_refl (conj eq_refl _)).
  refine (repair_fullconsensus_lowest_missing (demoEnv (5, Some demoRef, None))
            "/home/u/a.txt" "/a.txt" noStatus demoReady (snd demoRepairRun)
            demoListRequest 5 demoRef None demoRepairRequest eq_refl _ _ _ eq_refl).
  - vm_compute. right. right. left. reflexivity.
  - vm_compute. left. reflexivity.
  - vm_compute. reflexivity.
Defined.

(** ** Path and ticket validation *)

(** X16: list, stats, delete, rename, copy, move and share reject an
    empty remote path, and one that is not absolute after cleaning, with
    the invalid-path error before anything else happens. *)
Theorem invalid_path_rejected
    (env : Env) (op : Op) (s s' : State) (r : option error) (p : string) :
  validated_path op = Some p ->
  fst (isInitialized s) = true ->
  Allocation.underRepair (alloc s) = false ->
  len p = 0 \/ IsRemoteAbs env (RemoteClean env p) = false ->
  exec env op s = (r, s') ->
  s' = s /\ exists e, r = Some e /\ error_code e = "invalid_path"%string.
Proof.
  intros Hp Hinit Hrep Hbad Hrun. cbn [isInitialized fst] in Hinit.
  destruct op; try discriminate Hp; cbn [validated_path] in Hp;
    inversion Hp; subst; clear Hp; cbn [exec] in Hrun; unfold_ops; run_go;
    repeat (split_hyp Hrun; simpl_proj);
    clean_guards;
    try (exfalso; destruct Hbad as [Hbad | Hbad];
         [ apply Z.eqb_neq in Hbad; [exact Hbad | assumption] | congruence ]);
    try congruence;
    finish_run; (split; [reflexivity |]); eexists; split; reflexivity.
Qed.

Lemma invalid_path_rejected_witness :
  let env := demoEnv (15, Some demoRef, None) in
  let op := OpRenameObject "docs/a.txt" "b.txt" in
  let run := exec env op demoReady in
  IsRemoteAbs env (RemoteClean env "docs/a.txt") = false
  /\ snd run = demoReady
  /\ exists e, fst run = Some e /\ error_code e = "invalid_path"%string.
Proof.
  intros env op run. split; [reflexivity |].
  exact (invalid_path_rejected env op demoReady (snd run) (fst run) "docs/a.txt"
           eq_refl eq_refl eq_refl (or_intror eq_refl) eq_refl).
Defined.



(** X17: a ticket that is not valid base64 or JSON makes every
    ticket-taking operation return an error without any call to the file
    system or blobbers: the not-initialized error when the operation checks
    initialization and the allocation is not initialized, else the
    under-repair error when a download finds the allocation under repair,
    and the decode error in every other case. *)
Theorem undecodable_ticket_rejected
    (env : Env) (op : Op) (s s' : State) (r : option error)
    (t : string) (e0 : error) :
  ticket_of op = Some t ->
  decodeAuthTicket env t = Err e0 ->
  exec env op s = (r, s') ->
  s' = s
  /\ error_code e0 = "auth_ticket_decode_error"%string
  /\ (r = Some e0 \/ r = Some notInitialized \/ r = Some underRepair)
  /\ (is_file_meta op = false ->
      fst (isInitialized s) = false -> r = Some notInitialized)
  /\ (is_download op = true ->
      fst (isInitialized s) = true ->
      Allocation.underRepair (alloc s) = true -> r = Some underRepair)
  /\ (is_file_meta op = true \/ fst (isInitialized s) = true ->
      is_download op = false \/ Allocation.underRepair (alloc s) = false ->
      r = Some e0).
Proof.
  intros Ht Hdec Hrun.
  assert (Hcode : error_code e0 = "auth_ticket_decode_error"%string).
  { unfold decodeAuthTicket in Hdec.
    destruct (base64_DecodeString env t); [| inversion Hdec; reflexivity].
    destruct (json_Unmarshal env s0); [discriminate Hdec |].
    inversion Hdec. reflexivity. }
  destruct op; try discriminate Ht; cbn [ticket_of] in Ht;
    inversion Ht; subst; clear Ht; cbn [exec is_file_meta is_download] in *;
    unfold_ops;
    rewrite Hdec in Hrun;
    cbv beta iota zeta delta
      [bind ret self errorOf isInitialized UnderRepair result_error] in *;
    cbn [fst] in *;
    repeat (split_hyp Hrun; simpl_proj);
    finish_run; clean_guards;
    (split; [reflexivity |]); (split; [exact Hcode |]);
    (split; [tauto |]);
    repeat split; intros;
    repeat match goal with
      | H : _ \/ _ |- _ => destruct H
      end;
    congruence.
Qed.

Lemma undecodable_ticket_rejected_witness :
  let env := demoEnv (15, Some demoRef, None) in
  let e0 :=
    CommonError "auth_ticket_decode_error"
      "Error decoding the auth ticket.illegal base64 data" in
  let download := OpDownloadFromAuthTicket "/home/u/dl" "not-base64" "lh" "a.txt" noStatus in
  decodeAuthTicket env "not-base64" = Err e0
  /\ exec env (OpListDirFromAuthTicket "not-base64" "lh") demoReady
     = (Some e0, demoReady)
  /\ exec env download demoReady = (Some e0, demoReady)
  /\ exec env download demoUnderRepair = (Some underRepair, demoUnderRepair)
  /\ exec env download demoUninitialized = (Some notInitialized, demoUninitialized).
Proof.
  intros env e0 download. split; [reflexivity |].
  pose proof (fun op s =>
                undecodable_ticket_rejected env op s (snd (exec env op s))
                  (fst (exec env op s)) "not-base64" e0) as H.
  split.
  { destruct (H (OpListDirFromAuthTicket "not-base64" "lh") demoReady
                eq_refl eq_refl eq_refl) as (Hs & _ & _ & _ & _ & Hr).
    apply injective_projections; cbn [fst snd];
      [apply Hr; [right | left]; reflexivity | exact Hs]. }
  split.
  { destruct (H download demoReady eq_refl eq_refl eq_refl)
      as (Hs & _ & _ & _ & _ & Hr).
    apply injective_projections; cbn [fst snd];
      [apply Hr; right; reflexivity | exact Hs]. }
  split.
  { destruct (H download demoUnderRepair eq_refl eq_refl eq_refl)
      as (Hs & _ & _ & _ & Hr & _).
    apply injective_projections; cbn [fst snd];
      [apply Hr; reflexivity | exact Hs]. }
  destruct (H download demoUninitialized eq_refl eq_refl eq_refl)
    as (Hs & _ & _ & Hr & _).
  apply injective_projections; cbn [fst snd];
    [apply Hr; reflexivity | exact Hs].
Defined.

(** X18: ticket-based listing and file metadata return an error for an
    empty lookup hash, whatever the ticket, and leave the state untouched. *)
Theorem empty_lookup_hash_rejected
    (env : Env) (authTicket : string) (s : State) :
  (exists e, ListDirFromAuthTicket env authTicket "" s = (Err e, s))
  /\ (exists e, GetFileMetaFromAuthTicket env authTicket "" s = (Err e, s)).
Proof.
  unfold ListDirFromAuthTicket, GetFileMetaFromAuthTicket. run_go.
  change (len "" =? 0) with true.
  split.
  - destruct (negb (Allocation.initialized (alloc s) && sdkInitialized s));
      [eexists; reflexivity |].
    destruct (base64_DecodeString env authTicket); [| eexists; reflexivity].
    destruct (json_Unmarshal env s0); [| eexists; reflexivity].
    rewrite orb_true_r. eexists; reflexivity.
  - destruct (base64_DecodeString env authTicket); [| eexists; reflexivity].
    destruct (json_Unmarshal env s0); [| eexists; reflexivity].
    rewrite orb_true_r. eexists; reflexivity.
Qed.

(** ** Sharing *)

(** X19: [GetAuthTicket] makes exactly one share call and returns its
    answer; the call is the encrypted one exactly when a recipient key is
    given, the request carries the cleaned path, and its reference type is
    the directory type only when that is what was asked, the file type for
    any other string. *)
Theorem GetAuthTicket_request
    (env : Env)
    (path filename referenceType refereeClientID refereeEncryptionPublicKey : string)
    (s s' : State) (r : result string) (ev : Event) :
  GetAuthTicket env path filename referenceType refereeClientID
    refereeEncryptionPublicKey s = (r, s') ->
  In ev (emitted s s') ->
  emitted s s' = [ev]
  /\ exists q,
       (ev = EvShareTicket q refereeClientID r
        /\ refereeEncryptionPublicKey = ""%string
        \/ ev = EvShareTicketEncrypted q refereeClientID refereeEncryptionPublicKey r
           /\ refereeEncryptionPublicKey <> ""%string)
       /\ ShareRequest.remotefilepath q = RemoteClean env path
       /\ ShareRequest.remotefilename q = filename
       /\ ShareRequest.blobbers q = Allocation.Blobbers (alloc s)
       /\ (ShareRequest.refType q = fileref_DIRECTORY env
           /\ referenceType = fileref_DIRECTORY env
           \/ ShareRequest.refType q = fileref_FILE env
              /\ referenceType <> fileref_DIRECTORY env).
Proof.
  unfold GetAuthTicket. run_go. intros Hrun Hin.
  repeat (split_hyp Hrun; simpl_proj); finish_run; normalize_emitted;
    pick_event Hin; subst ev; (split; [reflexivity |]); eexists;
    cbn [ShareRequest.remotefilepath ShareRequest.remotefilename
         ShareRequest.blobbers ShareRequest.refType];
    (split;
     [ first
         [ left; split; [reflexivity |];
           match goal with
           | H : (0 <? len ?k) = false |- _ =>
               destruct k; [reflexivity | cbn in H; discriminate H]
           end
         | right; split; [reflexivity |];
           match goal with
           | H : (0 <? len ?k) = true |- _ =>
               intros ->; cbn in H; discriminate H
           end ]
     | ]);
    (split; [reflexivity |]); (split; [reflexivity |]);
    (split; [reflexivity |]);
    match goal with
    | H : String.eqb _ _ = true |- _ =>
        left; split; [reflexivity | apply String.eqb_eq; exact H]
    | H : String.eqb _ _ = false |- _ =>
        right; split; [reflexivity | apply String.eqb_neq; exact H]
    end.
Qed.

Lemma GetAuthTicket_request_witness :
  let env := demoEnv (15, Some demoRef, None) in
  let run := GetAuthTicket env "/docs" "docs" "d" "client" "" demoReady in
  let ev := EvShareTicket demoShareRequest "client" (Ok "ticket"%string) in
  In ev (emitted demoReady (snd run))
  /\ emitted demoReady (snd run) = [ev].
Proof.
  intros env run ev.
  assert (Hin : In ev (emitted demoReady (snd run)))
    by (vm_compute; left; reflexivity).
  split; [exact Hin |].
  exact (proj1 (GetAuthTicket_request env "/docs" "docs" "d" "client" ""
                  demoReady (snd run) (fst run) ev eq_refl Hin)).
Defined.

(** ** Metadata commits *)

(** X20: [CommitMetaTransaction] returns [nil] exactly when it has
    started the one commit worker.  Past the two guards, supplied metadata
    is committed as given without a blobber call; otherwise a non-empty
    path is resolved by [GetFileMeta] (the ticket is ignored), else a
    non-empty ticket by [GetFileMetaFromAuthTicket], the metadata read is
    the metadata committed and a failed read is the error returned; with
    neither path nor ticket a commit without metadata is started. *)
Theorem CommitMetaTransaction_outcome
    (env : Env) (path crudOperation authTicket lookupHash : string)
    (fileMeta : option ConsolidatedFileMeta.t) (status : StatusCallback)
    (s s' : State) (r : option error) :
  CommitMetaTransaction env path crudOperation authTicket lookupHash fileMeta
    status s = (r, s') ->
  match r with
  | Some _ => startedCommits (emitted s s') = []
  | None =>
      exists req,
        startedCommits (emitted s s') = [req]
        /\ CommitMetaRequest.CrudType req = crudOperation
        /\ CommitMetaRequest.authToken req = authTicket
        /\ CommitMetaRequest.status req = status
        /\ match fileMeta with
           | Some m =>
               CommitMetaRequest.MetaData req = Some m
               /\ emitted s s' = [EvGo (GoCommitMeta req)]
           | None =>
               if 0 <? len path
               then exists q a m,
                      emitted s s'
                      = [EvGetFileConsensus q a; EvGo (GoCommitMeta req)]
                      /\ ListRequest.remotefilepath q = path
                      /\ ListRequest.authToken q = None
                      /\ CommitMetaRequest.MetaData req = Some m
               else if 0 <? len authTicket
               then exists q a m at_,
                      emitted s s'
                      = [EvGetFileConsensus q a; EvGo (GoCommitMeta req)]
                      /\ ListRequest.remotefilepathhash q = lookupHash
                      /\ ListRequest.authToken q = Some at_
                      /\ CommitMetaRequest.MetaData req = Some m
               else CommitMetaRequest.MetaData req = None
                    /\ emitted s s' = [EvGo (GoCommitMeta req)]
           end
  end
  /\ (fst (isInitialized s) = true ->
      Allocation.underRepair (alloc s) = false ->
      let commit (m : option ConsolidatedFileMeta.t) (st : State) :=
        (@None error,
         snd (log (EvGo (GoCommitMeta
                           {| CommitMetaRequest.CrudType := crudOperation;
                              CommitMetaRequest.MetaData := m;
                              CommitMetaRequest.status := status;
                              CommitMetaRequest.authToken := authTicket |}))
                st)) in
      (r, s')
      = match fileMeta with
        | Some m => commit (Some m) s
        | None =>
            if 0 <? len path
            then match GetFileMeta env path s with
                 | (Ok m, s1) => commit (Some m) s1
                 | (Err e, s1) => (Some e, s1)
                 end
            else if 0 <? len authTicket
            then match GetFileMetaFromAuthTicket env authTicket lookupHash s with
                 | (Ok m, s1) => commit (Some m) s1
                 | (Err e, s1) => (Some e, s1)
                 end
            else commit None s
        end).
Proof.
  intros Hrun. split.
  - revert Hrun.
    unfold CommitMetaTransaction, GetFileMeta, GetFileMetaFromAuthTicket.
    unfold newListRequest. run_go. intros Hrun.
    repeat (split_hyp Hrun; simpl_proj); finish_run; normalize_emitted;
      cbn [app startedCommits flat_map]; try reflexivity;
      eexists;
      cbn [CommitMetaRequest.CrudType CommitMetaRequest.authToken
           CommitMetaRequest.status CommitMetaRequest.MetaData];
      (split; [reflexivity |]); (split; [reflexivity |]);
      (split; [reflexivity |]); (split; [reflexivity |]);
      repeat match goal with
        | H : ?c = _ |- context [if ?c then _ else _] => rewrite H
        end;
      first
        [ split; reflexivity
        | eexists; eexists; eexists; eexists; repeat split; reflexivity
        | eexists; eexists; eexists; repeat split; reflexivity ].
  - intros Hinit Hrep commit. subst commit. rewrite <- Hrun.
    cbn [isInitialized fst] in Hinit.
    unfold CommitMetaTransaction.
    cbv beta iota zeta delta
      [bind ret log go_ isInitialized UnderRepair commitMeta snd].
    rewrite Hinit. cbn [negb]. cbv beta iota zeta. rewrite Hrep.
    destruct fileMeta as [m |]; [reflexivity |].
    destruct (0 <? len path).
    + destruct (GetFileMeta env path s) as [[m | e] s1]; reflexivity.
    + destruct (0 <? len authTicket); [| reflexivity].
      destruct (GetFileMetaFromAuthTicket env authTicket lookupHash s)
        as [[m | e] s1]; reflexivity.
Qed.

Lemma CommitMetaTransaction_outcome_witness :
  let env := demoEnv (15, Some demoRef, None) in
  let supplied :=
    CommitMetaTransaction env "/a.txt" "Update" "" "" (Some demoMeta) noStatus
      demoReady in
  let resolved :=
    CommitMetaTransaction env "/a.txt" "Update" "" "" None noStatus demoReady in
  fst supplied = None
  /\ emitted demoReady (snd supplied) = [demoCommit (Some demoMeta)]
  /\ fst resolved = None
  /\ exists m,
       fst (GetFileMeta env "/a.txt" demoReady) = Ok m
       /\ emitted demoReady (snd resolved)
          = [EvGetFileConsensus demoListRequest (15, Some demoRef, None);
             demoCommit (Some m)].
Proof.
  intros env supplied resolved.
  destruct (CommitMetaTransaction_outcome env "/a.txt" "Update" "" ""
              (Some demoMeta) noStatus demoReady (snd supplied) (fst supplied)
              eq_refl) as (_ & Hs).
  specialize (Hs eq_refl eq_refl). cbv beta iota zeta in Hs.
  destruct (CommitMetaTransaction_outcome env "/a.txt" "Update" "" ""
              None noStatus demoReady (snd resolved) (fst resolved)
              eq_refl) as (_ & Hr).
  specialize (Hr eq_refl eq_refl). cbv beta iota zeta in Hr.
  change (0 <? len "/a.txt") with true in Hr. cbv iota in Hr.
  split; [exact (f_equal fst Hs) |].
  split.
  { change (snd supplied) with (snd (fst supplied, snd supplied)).
    rewrite Hs. reflexivity. }
  split.
  { change (fst resolved) with (fst (fst resolved, snd resolved)).
    rewrite Hr. reflexivity. }
  eexists. split; [reflexivity |].
  change (snd resolved) with (snd (fst resolved, snd resolved)).
  rewrite Hr. reflexivity.
Defined.

(** ** Move, continued *)

(** X21: whenever [MoveObject] issues a delete, a successful copy of
    the same cleaned source path came first, and the result of the move is
    the result of that delete. *)
Theorem MoveObject_deletes_after_copy
    (env : Env) (path destPath : string) (s s' : State) (r : option error)
    (qd : DeleteRequest.t) (rd : option error) :
  MoveObject env path destPath s = (r, s') ->
  In (EvProcessDelete qd rd) (emitted s s') ->
  r = rd
  /\ exists c1 c2 qc,
       emitted s s'
       = [EvNewConnectionId c1; EvProcessCopy qc None;
          EvNewConnectionId c2; EvProcessDelete qd rd]
       /\ CopyRequest.remotefilepath qc = RemoteClean env path
       /\ CopyRequest.destPath qc = destPath
       /\ DeleteRequest.remotefilepath qd = RemoteClean env path
       /\ CopyRequest.connectionID qc = c1
       /\ DeleteRequest.connectionID qd = c2.
Proof.
  unfold MoveObject, CopyObject, DeleteFile. run_go. intros Hrun Hin.
  repeat (split_hyp Hrun; simpl_proj); finish_run; normalize_emitted;
    rewrite <- ?app_assoc in *; cbn [app] in *;
    pick_event Hin; inversion Hin; subst;
    (split; [reflexivity |]);
    eexists; eexists; eexists; repeat split; reflexivity.
Qed.

Lemma MoveObject_deletes_after_copy_witness :
  let env := demoEnv (15, Some demoRef, None) in
  let run := MoveObject env "/a.txt" "/b" demoReady in
  In (EvProcessDelete demoDeleteRequest None) (emitted demoReady (snd run))
  /\ fst run = None
  /\ exists c1 c2 qc,
       emitted demoReady (snd run)
       = [EvNewConnectionId c1; EvProcessCopy qc None;
          EvNewConnectionId c2; EvProcessDelete demoDeleteRequest None]
       /\ CopyRequest.remotefilepath qc = "/a.txt"%string
       /\ CopyRequest.destPath qc = "/b"%string
       /\ DeleteRequest.remotefilepath demoDeleteRequest = "/a.txt"%string
       /\ CopyRequest.connectionID qc = c1
       /\ DeleteRequest.connectionID demoDeleteRequest = c2.
Proof.
  intros env run.
  assert (Hin : In (EvProcessDelete demoDeleteRequest None)
                   (emitted demoReady (snd run)))
    by (vm_compute; right; right; right; left; reflexivity).
  split; [exact Hin |].
  exact (MoveObject_deletes_after_copy env "/a.txt" "/b" demoReady (snd run)
           (fst run) demoDeleteRequest None eq_refl Hin).
Defined.

(** ** File metadata, continued *)

(** X22: [GetFileMeta] makes one consensus read for the path as given,
    not cleaned or validated and without a ticket, leaves the allocation
    alone, and returns the projection of the reference the read answers
    with, or the file-meta error when it answers with none. *)
Theorem GetFileMeta_outcome (env : Env) (path : string) (s : State) :
  let q := newListRequest (alloc s) path "" None in
  let ans := getFileConsensusFromBlobbers env (trace s) q in
  let run := GetFileMeta env path s in
  alloc (snd run) = alloc s
  /\ emitted s (snd run) = [EvGetFileConsensus q ans]
  /\ fst run
     = match snd (fst ans) with
       | None => Err errFileMeta
       | Some f =>
           Ok {| ConsolidatedFileMeta.Name := FileRef.Name f;
                 ConsolidatedFileMeta.Type_ := FileRef.Type_ f;
                 ConsolidatedFileMeta.Path := FileRef.Path f;
                 ConsolidatedFileMeta.LookupHash := FileRef.LookupHash f;
                 ConsolidatedFileMeta.Hash := FileRef.ActualFileHash f;
                 ConsolidatedFileMeta.MimeType := FileRef.MimeType f;
                 ConsolidatedFileMeta.Size := FileRef.ActualFileSize f;
                 ConsolidatedFileMeta.EncryptedKey := FileRef.EncryptedKey f;
                 ConsolidatedFileMeta.CommitMetaTxns := FileRef.CommitMetaTxns f |}
       end.
Proof.
  intros q ans run. subst run. unfold GetFileMeta. run_go. fold q. fold ans.
  destruct ans as [[found ref] e]. cbn [fst snd].
  destruct ref as [f |]; cbn [fst snd]; normalize_emitted;
    repeat split; reflexivity.
Qed.

(** X23: given a ticket that decodes with a non-empty path hash and a
    non-empty lookup hash, [GetFileMetaFromAuthTicket] makes one consensus
    read by lookup hash with the decoded ticket attached and returns the
    projection of the reference the read answers with, its encrypted key
    left empty, or the file-meta error when the read answers with none. *)
Theorem GetFileMetaFromAuthTicket_drops_key
    (env : Env) (authTicket lookupHash : string) (s : State) (at_ : AuthTicket) :
  decodeAuthTicket env authTicket = Ok at_ ->
  0 < len (FilePathHash at_) ->
  0 < len lookupHash ->
  let q := newListRequest (alloc s) "" lookupHash (Some at_) in
  let ans := getFileConsensusFromBlobbers env (trace s) q in
  let run := GetFileMetaFromAuthTicket env authTicket lookupHash s in
  alloc (snd run) = alloc s
  /\ emitted s (snd run) = [EvGetFileConsensus q ans]
  /\ fst run
     = match snd (fst ans) with
       | None => Err errFileMeta
       | Some f =>
           Ok {| ConsolidatedFileMeta.Name := FileRef.Name f;
                 ConsolidatedFileMeta.Type_ := FileRef.Type_ f;
                 ConsolidatedFileMeta.Path := FileRef.Path f;
                 ConsolidatedFileMeta.LookupHash := FileRef.LookupHash f;
                 ConsolidatedFileMeta.Hash := FileRef.ActualFileHash f;
                 ConsolidatedFileMeta.MimeType := FileRef.MimeType f;
                 ConsolidatedFileMeta.Size := FileRef.ActualFileSize f;
                 ConsolidatedFileMeta.EncryptedKey := "";
                 ConsolidatedFileMeta.CommitMetaTxns := FileRef.CommitMetaTxns f |}
       end.
Proof.
  intros Hdec Hhash Hlookup q ans run. subst run.
  unfold GetFileMetaFromAuthTicket. rewrite Hdec.
  assert (Hg : (len (FilePathHash at_) =? 0) || (len lookupHash =? 0) = false).
  { apply orb_false_intro; apply Z.eqb_neq; lia. }
  rewrite Hg. run_go. fold q. fold ans.
  destruct ans as [[found ref] e]. cbn [fst snd].
  destruct ref as [f |]; cbn [fst snd]; normalize_emitted;
    repeat split; reflexivity.
Qed.

Lemma GetFileMetaFromAuthTicket_drops_key_witness :
  let env := demoEnv (5, Some demoKeyedRef, None) in
  let run :=
    GetFileMetaFromAuthTicket env "eyJmaWxlX3BhdGhfaGFzaCI6ImgifQ==" "lh" demoReady in
  decodeAuthTicket env "eyJmaWxlX3BhdGhfaGFzaCI6ImgifQ==" = Ok hashTicket
  /\ emitted demoReady (snd run)
     = [EvGetFileConsensus demoTicketListRequest (5, Some demoKeyedRef, None)]
  /\ FileRef.EncryptedKey demoKeyedRef = "k"%string
  /\ exists m,
       fst run = Ok m
       /\ ConsolidatedFileMeta.Hash m = FileRef.ActualFileHash demoKeyedRef
       /\ ConsolidatedFileMeta.EncryptedKey m = ""%string.
Proof.
  intros env run.
  split; [reflexivity |].
  destruct (GetFileMetaFromAuthTicket_drops_key env
              "eyJmaWxlX3BhdGhfaGFzaCI6ImgifQ==" "lh" demoReady hashTicket
              eq_refl eq_refl eq_refl)
    as (_ & Hem & Hres).
  split; [exact Hem |]. split; [reflexivity |].
  eexists. split; [exact Hres | split; reflexivity].
Defined.

(** ** Price ranges *)

Lemma IsValid_iff (pr : PriceRange.t) :
  IsValid pr = true <-> 0 <= PriceRange.Min pr <= PriceRange.Max pr.
Proof.
  unfold IsValid. rewrite andb_true_iff, !Z.leb_le. reflexivity.
Qed.

(** ** Progress maps and cancellation *)

Lemma cancelAt_same {A : Type} (p : nat) (objs : list (A * bool)) :
  (p < List.length objs)%nat ->
  option_map snd (nth_error (cancelAt p objs) p) = Some true.
Proof.
  revert p. induction objs as [| [r b] rest IH]; intros p Hp; cbn in Hp; [lia |].
  destruct p as [| p']; [reflexivity |].
  cbn [cancelAt nth_error]. apply IH. lia.
Qed.

Lemma cancelAt_other {A : Type} (p p' : nat) (objs : list (A * bool)) :
  p' <> p -> nth_error (cancelAt p objs) p' = nth_error objs p'.
Proof.
  revert p p'. induction objs as [| [r b] rest IH]; intros p p' Hne.
  - destruct p; reflexivity.
  - destruct p as [| q], p' as [| q']; cbn [cancelAt nth_error];
      try reflexivity; [congruence |].
    apply IH. congruence.
Qed.

Lemma cancelAt_requests {A : Type} (p : nat) (objs : list (A * bool)) :
  map fst (cancelAt p objs) = map fst objs.
Proof.
  revert p. induction objs as [| [r b] rest IH]; intros p.
  - destruct p; reflexivity.
  - destruct p as [| q]; cbn [cancelAt map fst]; [reflexivity |].
    rewrite IH. reflexivity.
Qed.

Lemma cancelAt_last {A : Type} (objs : list (A * bool)) (r : A) (b : bool) :
  cancelAt (List.length objs) (objs ++ [(r, b)]) = objs ++ [(r, true)].
Proof.
  induction objs as [| o rest IH]; [reflexivity |].
  cbn [List.length app cancelAt]. destruct o. rewrite IH. reflexivity.
Qed.

Lemma cancelAt_idempotent {A : Type} (p : nat) (objs : list (A * bool)) :
  cancelAt p (cancelAt p objs) = cancelAt p objs.
Proof.
  revert p. induction objs as [| [r b] l IH]; intros p; destruct p;
    cbn [cancelAt]; try reflexivity.
  rewrite IH. reflexivity.
Qed.

Lemma nth_error_app_last {A : Type} (l : list A) (x : A) :
  nth_error (l ++ [x]) (List.length l) = Some x.
Proof. induction l as [| y l IH]; [reflexivity | exact IH]. Qed.

Lemma pm_insert_same (key : string) (p : nat) (m : ProgressMap) :
  pm_insert key p m key = Some p.
Proof. unfold pm_insert. rewrite String.eqb_refl. reflexivity. Qed.

Lemma pm_delete_same (key : string) (m : ProgressMap) : pm_delete key m key = None.
Proof. unfold pm_delete. rewrite String.eqb_refl. reflexivity. Qed.

Lemma pm_delete_other (key k : string) (m : ProgressMap) :
  k <> key -> pm_delete key m k = m k.
Proof.
  intros Hne. unfold pm_delete.
  destruct (String.eqb_spec k key); [contradiction | reflexivity].
Qed.

Lemma CancelUpload_after_registration_aux
    (key : string) (uploadReq : UploadRequest.t) (pr pr' : Progress) (p : nat) :
  enqueueUploadClosure key uploadReq pr = Some (p, pr') ->
  let pr'' := snd (CancelUpload key pr') in
  fst (CancelUpload key pr') = None
  /\ nth_error (uploadObjects pr') p = Some (uploadReq, false)
  /\ nth_error (uploadObjects pr'') p = Some (uploadReq, true)
  /\ (forall p', p' <> p ->
        nth_error (uploadObjects pr'') p' = nth_error (uploadObjects pr) p')
  /\ uploadChan pr'' = uploadChan pr ++ [p]
  /\ uploadProgressMap pr'' = uploadProgressMap pr'
  /\ CancelUpload key pr'' = (None, pr'').
Proof.
  unfold enqueueUploadClosure.
  destruct (List.length (uploadChan pr) <? chanCapacity)%nat; [| discriminate].
  intros Hrun. inversion Hrun; subst; clear Hrun. cbv zeta.
  unfold CancelUpload. cbn [uploadProgressMap uploadObjects uploadChan fst snd].
  rewrite pm_insert_same. cbn [uploadProgressMap uploadObjects uploadChan fst snd].
  assert (Hlast : nth_error (uploadObjects pr ++ [(uploadReq, false)])
                    (List.length (uploadObjects pr)) = Some (uploadReq, false))
    by apply nth_error_app_last.
  assert (Hcancelled :
            nth_error (cancelAt (List.length (uploadObjects pr))
                         (uploadObjects pr ++ [(uploadReq, false)]))
              (List.length (uploadObjects pr)) = Some (uploadReq, true)).
  { rewrite cancelAt_last. apply nth_error_app_last. }
  split; [reflexivity |]. split; [exact Hlast |]. split; [exact Hcancelled |].
  split.
  - intros p' Hne. rewrite cancelAt_other by exact Hne.
    destruct (Nat.lt_ge_cases p' (List.length (uploadObjects pr))) as [Hlt | Hge].
    + apply nth_error_app1. exact Hlt.
    + rewrite (proj2 (nth_error_None (uploadObjects pr) p')) by exact Hge.
      apply nth_error_None. rewrite length_app. cbn [List.length]. lia.
  - split; [reflexivity |]. split; [reflexivity |].
    unfold CancelUpload.
    cbn [uploadProgressMap uploadObjects uploadChan fst snd].
    rewrite pm_insert_same, cancelAt_idempotent. reflexivity.
Qed.

(** X24: once the enqueue closure has run, [CancelUpload] on its key
    returns [nil] and sets the cancel flag of that request object and of no
    other; the channel and the maps are as they were, and cancelling again
    changes nothing. *)
Theorem CancelUpload_after_registration
    (key : string) (uploadReq : UploadRequest.t) (pr pr' : Progress) (p : nat) :
  enqueueUploadClosure key uploadReq pr = Some (p, pr') ->
  let pr'' := snd (CancelUpload key pr') in
  fst (CancelUpload key pr') = None
  /\ nth_error (uploadObjects pr') p = Some (uploadReq, false)
  /\ nth_error (uploadObjects pr'') p = Some (uploadReq, true)
  /\ (forall p', p' <> p ->
        nth_error (uploadObjects pr'') p' = nth_error (uploadObjects pr) p')
  /\ uploadChan pr'' = uploadChan pr ++ [p]
  /\ uploadProgressMap pr'' = uploadProgressMap pr'
  /\ CancelUpload key pr'' = (None, pr'').
Proof. exact (CancelUpload_after_registration_aux key uploadReq pr pr' p). Qed.

Lemma CancelUpload_after_registration_witness :
  let key := "/home/u/a.txt"%string in
  let pr' := snd demoRegistered in
  let pr'' := snd (CancelUpload key pr') in
  enqueueUploadClosure key demoThumbnailRequest freshProgress = Some (O, pr')
  /\ fst (CancelUpload key pr') = None
  /\ nth_error (uploadObjects pr') O = Some (demoThumbnailRequest, false)
  /\ nth_error (uploadObjects pr'') O = Some (demoThumbnailRequest, true)
  /\ (forall p', p' <> O ->
        nth_error (uploadObjects pr'') p' = nth_error (uploadObjects freshProgress) p')
  /\ uploadChan pr'' = uploadChan freshProgress ++ [O]
  /\ uploadProgressMap pr'' = uploadProgressMap pr'
  /\ CancelUpload key pr'' = (None, pr'').
Proof.
  intros key pr' pr''.
  assert (Hrun : enqueueUploadClosure key demoThumbnailRequest freshProgress
                 = Some (O, pr')) by reflexivity.
  split; [exact Hrun |].
  exact (CancelUpload_after_registration key demoThumbnailRequest freshProgress
           pr' O Hrun).
Defined.

Lemma upload_completion_unregisters_aux (key : string) (pr : Progress) :
  let done := uploadCompleted key pr in
  CancelUpload key done = (Some (errUploadNotFound key), done)
  /\ (forall k, k <> key -> fst (CancelUpload k done) = fst (CancelUpload k pr))
  /\ uploadObjects done = uploadObjects pr
  /\ uploadChan done = uploadChan pr.
Proof.
  cbv zeta. unfold CancelUpload, uploadCompleted. cbn [uploadProgressMap].
  rewrite pm_delete_same. split; [reflexivity |].
  split; [| split; reflexivity].
  intros k Hne. rewrite pm_delete_other by exact Hne.
  destruct (uploadProgressMap pr k); reflexivity.
Qed.

(** X25: two uploads of one local path share a key: cancelling marks
    the second request only, and once the completion callback of either has
    run the key is gone, so the second upload, still queued and not
    cancelled, can no longer be cancelled. *)
Theorem same_path_upload_uncancellable
    (key : string) (r1 r2 : UploadRequest.t) (pr pr1 pr2 : Progress) (p1 p2 : nat) :
  enqueueUploadClosure key r1 pr = Some (p1, pr1) ->
  enqueueUploadClosure key r2 pr1 = Some (p2, pr2) ->
  let cancelled := snd (CancelUpload key pr2) in
  let done := uploadCompleted key pr2 in
  p2 = S p1
  /\ nth_error (uploadObjects cancelled) p1 = Some (r1, false)
  /\ nth_error (uploadObjects cancelled) p2 = Some (r2, true)
  /\ CancelUpload key done = (Some (errUploadNotFound key), done)
  /\ nth_error (uploadObjects done) p2 = Some (r2, false)
  /\ In p2 (uploadChan done).
Proof.
  intros H1 H2.
  destruct (CancelUpload_after_registration_aux key r2 pr1 pr2 p2 H2)
    as (_ & Hobj2 & Hflag2 & Hframe & Hchan & _).
  destruct (CancelUpload_after_registration_aux key r1 pr pr1 p1 H1)
    as (_ & Hobj1 & _).
  assert (Hp : p2 = S p1).
  { unfold enqueueUploadClosure in H1, H2.
    destruct (List.length (uploadChan pr) <? chanCapacity)%nat; [| discriminate].
    destruct (List.length (uploadChan pr1) <? chanCapacity)%nat; [| discriminate].
    inversion H1; subst. inversion H2; subst.
    cbn [uploadObjects]. rewrite length_app. cbn [List.length]. lia. }
  cbv zeta.
  split; [exact Hp |].
  split; [rewrite Hframe by lia; exact Hobj1 |].
  split; [exact Hflag2 |].
  split; [apply upload_completion_unregisters_aux |].
  split; [exact Hobj2 |].
  cbn [uploadCompleted uploadChan].
  unfold enqueueUploadClosure in H2.
  destruct (List.length (uploadChan pr1) <? chanCapacity)%nat; [| discriminate].
  inversion H2; subst. cbn [uploadChan]. apply in_or_app. right. left. reflexivity.
Qed.

Lemma same_path_upload_uncancellable_witness :
  let key := "/home/u/a.txt"%string in
  let pr1 := snd demoRegistered in
  let pr2 := snd demoRegisteredTwice in
  let cancelled := snd (CancelUpload key pr2) in
  let done := uploadCompleted key pr2 in
  enqueueUploadClosure key demoThumbnailRequest freshProgress = Some (O, pr1)
  /\ enqueueUploadClosure key demoRepairRequest pr1 = Some (1%nat, pr2)
  /\ 1%nat = 1%nat
  /\ nth_error (uploadObjects cancelled) O = Some (demoThumbnailRequest, false)
  /\ nth_error (uploadObjects cancelled) 1 = Some (demoRepairRequest, true)
  /\ CancelUpload key done = (Some (errUploadNotFound key), done)
  /\ nth_error (uploadObjects done) 1 = Some (demoRepairRequest, false)
  /\ In 1%nat (uploadChan done).
Proof.
  intros key pr1 pr2 cancelled done.
  assert (H1 : enqueueUploadClosure key demoThumbnailRequest freshProgress
               = Some (O, pr1)) by reflexivity.
  assert (H2 : enqueueUploadClosure key demoRepairRequest pr1
               = Some (1%nat, pr2)) by reflexivity.
  split; [exact H1 |]. split; [exact H2 |].
  exact (same_path_upload_uncancellable key demoThumbnailRequest demoRepairRequest
           freshProgress pr1 pr2 O 1 H1 H2).
Defined.

Lemma CancelDownload_after_registration_aux
    (key : string) (downloadReq : DownloadRequest.t) (pr pr' : Progress) (p : nat) :
  enqueueDownloadClosure key downloadReq pr = Some (p, pr') ->
  let pr'' := snd (CancelDownload key pr') in
  fst (CancelDownload key pr') = None
  /\ nth_error (downloadObjects pr') p = Some (downloadReq, false)
  /\ nth_error (downloadObjects pr'') p = Some (downloadReq, true)
  /\ (forall p', p' <> p ->
        nth_error (downloadObjects pr'') p' = nth_error (downloadObjects pr) p')
  /\ downloadChan pr'' = downloadChan pr ++ [p]
  /\ downloadProgressMap pr' = pm_insert key p (downloadProgressMap pr).
Proof.
  unfold enqueueDownloadClosure.
  destruct (List.length (downloadChan pr) <? chanCapacity)%nat; [| discriminate].
  intros Hrun. inversion Hrun; subst; clear Hrun. cbv zeta.
  unfold CancelDownload.
  cbn [downloadProgressMap downloadObjects downloadChan fst snd].
  rewrite pm_insert_same.
  cbn [downloadProgressMap downloadObjects downloadChan fst snd].
  split; [reflexivity |]. split; [apply nth_error_app_last |].
  split; [rewrite cancelAt_last; apply nth_error_app_last |].
  split; [| split; reflexivity].
  intros p' Hne. rewrite cancelAt_other by exact Hne.
  destruct (Nat.lt_ge_cases p' (List.length (downloadObjects pr))) as [Hlt | Hge].
  - apply nth_error_app1. exact Hlt.
  - rewrite (proj2 (nth_error_None (downloadObjects pr) p')) by exact Hge.
    apply nth_error_None. rewrite length_app. cbn [List.length]. lia.
Qed.

(** X26: after a download that returned [nil] and its enqueue closure,
    [CancelDownload] on the remote path (the lookup hash for a ticket)
    marks that request; after the completion callback for that request it
    returns the not-found error. *)
Theorem download_cancellable_by_key
    (env : Env) (op : Op) (s s' : State) (pr : Progress) :
  is_download op = true ->
  exec env op s = (None, s') ->
  (List.length (downloadChan pr) < chanCapacity)%nat ->
  let key := download_key op in
  exists req p pr',
    In (EvGo (GoEnqueueDownload key req)) (emitted s s')
    /\ enqueueDownloadClosure key req pr = Some (p, pr')
    /\ fst (CancelDownload key pr') = None
    /\ nth_error (downloadObjects (snd (CancelDownload key pr'))) p = Some (req, true)
    /\ fst (CancelDownload key
              (downloadCompleted (is_ticket_download op)
                 (DownloadRequest.remotefilepath req)
                 (DownloadRequest.remotefilepathhash req) pr'))
       = Some (errDownloadNotFound key).
Proof.
  intros Hop Hrun Hroom key.
  assert (Hout := download_outcome env op s s' None Hop Hrun).
  cbv beta iota in Hout.
  destruct Hout as (_ & req & _ & Hin & _ & _ & _ & _ & Hkeys).
  fold key in Hin, Hkeys.
  destruct (enqueueDownloadClosure key req pr) as [[p pr'] |] eqn:Hclosure.
  - exists req, p, pr'.
    destruct (CancelDownload_after_registration_aux key req pr pr' p Hclosure)
      as (Hnil & _ & Hflag & _).
    split; [exact Hin |]. split; [exact Hclosure |].
    split; [exact Hnil |]. split; [exact Hflag |].
    unfold CancelDownload, downloadCompleted. cbn [downloadProgressMap].
    replace (if is_ticket_download op
             then DownloadRequest.remotefilepathhash req
             else DownloadRequest.remotefilepath req) with key.
    + rewrite pm_delete_same. reflexivity.
    + destruct (is_ticket_download op); destruct Hkeys as (Hp & Hh & _);
        congruence.
  - unfold enqueueDownloadClosure in Hclosure.
    apply Nat.ltb_lt in Hroom. rewrite Hroom in Hclosure. discriminate Hclosure.
Qed.

Lemma download_cancellable_by_key_witness :
  let key := download_key demoDownloadOp in
  fst demoDownloadRun = None
  /\ (List.length (downloadChan freshProgress) < chanCapacity)%nat
  /\ exists req p pr',
       In (EvGo (GoEnqueueDownload key req)) (emitted demoReady (snd demoDownloadRun))
       /\ enqueueDownloadClosure key req freshProgress = Some (p, pr')
       /\ fst (CancelDownload key pr') = None
       /\ nth_error (downloadObjects (snd (CancelDownload key pr'))) p
          = Some (req, true)
       /\ fst (CancelDownload key
                 (downloadCompleted (is_ticket_download demoDownloadOp)
                    (DownloadRequest.remotefilepath req)
                    (DownloadRequest.remotefilepathhash req) pr'))
          = Some (errDownloadNotFound key).
Proof.
  intros key.
  assert (Hroom : (List.length (downloadChan freshProgress) < chanCapacity)%nat)
    by (vm_compute; lia).
  split; [reflexivity |]. split; [exact Hroom |].
  exact (download_cancellable_by_key (demoEnv (15, Some demoRef, None))
           demoDownloadOp demoReady (snd demoDownloadRun) freshProgress
           eq_refl eq_refl Hroom).
Defined.

(** X27: after an upload that returned [nil] and its enqueue closure,
    [CancelUpload] on the local path marks that request; after the
    completion callback for the request's file path it returns the
    not-found error. *)
Theorem upload_cancellable_by_local_path
    (env : Env) (localpath remotepath : string) (status : StatusCallback)
    (isUpdate : bool) (thumbnailpath : string) (encryption isRepair : bool)
    (s s' : State) (pr : Progress) :
  uploadOrUpdateFile env localpath remotepath status isUpdate thumbnailpath
    encryption isRepair s = (None, s') ->
  (List.length (uploadChan pr) < chanCapacity)%nat ->
  exists req p pr',
    In (EvGo (GoEnqueueUpload localpath req)) (emitted s s')
    /\ enqueueUploadClosure localpath req pr = Some (p, pr')
    /\ fst (CancelUpload localpath pr') = None
    /\ nth_error (uploadObjects (snd (CancelUpload localpath pr'))) p = Some (req, true)
    /\ fst (CancelUpload localpath
              (uploadCompleted (UploadRequest.filepath req) pr'))
       = Some (errUploadNotFound localpath).
Proof.
  intros Hrun Hroom.
  assert (Hout := upload_outcome env localpath remotepath status isUpdate
                    thumbnailpath encryption isRepair s s' None Hrun).
  cbv beta iota in Hout.
  destruct Hout as (req & fi & _ & Hin & _ & Hpath & _).
  destruct (enqueueUploadClosure localpath req pr) as [[p pr'] |] eqn:Hclosure.
  - exists req, p, pr'.
    destruct (CancelUpload_after_registration_aux localpath req pr pr' p Hclosure)
      as (Hnil & _ & Hflag & _).
    split; [exact Hin |]. split; [exact Hclosure |].
    split; [exact Hnil |]. split; [exact Hflag |].
    rewrite Hpath.
    destruct (upload_completion_unregisters_aux localpath pr') as [Hdone _].
    cbv zeta in Hdone. rewrite Hdone. reflexivity.
  - unfold enqueueUploadClosure in Hclosure.
    apply Nat.ltb_lt in Hroom. rewrite Hroom in Hclosure. discriminate Hclosure.
Qed.

Lemma upload_cancellable_by_local_path_witness :
  let localpath := "/home/u/a.txt"%string in
  fst demoThumbnailRun = None
  /\ (List.length (uploadChan freshProgress) < chanCapacity)%nat
  /\ exists req p pr',
       In (EvGo (GoEnqueueUpload localpath req))
          (emitted demoReady (snd demoThumbnailRun))
       /\ enqueueUploadClosure localpath req freshProgress = Some (p, pr')
       /\ fst (CancelUpload localpath pr') = None
       /\ nth_error (uploadObjects (snd (CancelUpload localpath pr'))) p
          = Some (req, true)
       /\ fst (CancelUpload localpath
                 (uploadCompleted (UploadRequest.filepath req) pr'))
          = Some (errUploadNotFound localpath).
Proof.
  intros localpath.
  assert (Hroom : (List.length (uploadChan freshProgress) < chanCapacity)%nat)
    by (vm_compute; lia).
  split; [reflexivity |]. split; [exact Hroom |].
  exact (upload_cancellable_by_local_path (demoEnv (15, Some demoRef, None))
           localpath "/docs/a.txt" noStatus false "/home/u/missing.png" false false
           demoReady (snd demoThumbnailRun) freshProgress eq_refl Hroom).
Defined.
